(** * taiwan-spreadsheet: ingestion and per-customer rendering

    A shallow embedding of [src/data_processor.py] (class [DataProcessor]) and
    of [src/pdf_generator.py] (class [PDFGenerator]).

    Conventions of the embedding.
    - Text is a [string] with one [ascii] per code point, for the code points
      0..255; the [str] methods used by the code ([lower], [strip],
      [isalnum], [startswith]) are Python's, restricted to that range.
    - A spreadsheet is the grid [pandas.read_excel(arquivo, header=None)]
      delivers: blank cells are [NaN], text cells are [Str], numeric cells
      are [Num] (integers; dates, booleans and fractions are left out).
    - The second reading, [pandas.read_excel(arquivo, header=h)], types
      each column below the header anew: it leaves a blank cell blank and a
      non-blank cell non-blank, but where every cell of a column reads as a
      number or as a boolean it delivers numbers or booleans, whose text
      differs ([007] becomes [7], [1] beside a blank becomes [1.0]). The
      embedding delivers the cells as they are in the grid. The statements
      about which rows and columns a table has, about Quantidade and about
      the answer of the load do not depend on this; a statement about the
      text of a cell is made for the cells that hold [texto_simples], which
      the second reading leaves as they are.
    - pandas 2 semantics: [astype(str)] turns a missing value into the
      text [nan].
    - A [DataFrame] is its column labels and its rows; the row index plays
      no part in the code modelled here.
    - Frames are objects in a store: [copy] and row selection allocate,
      column assignment updates in place. *)

From Stdlib Require Import ZArith Ascii String.
From stdpp Require Import base list strings pretty sorting gmap.

Local Open Scope string_scope.
Local Open Scope list_scope.

(** ** Python text *)

Module PyStr.

(** [str.isspace] of one character. *)
Definition isspace (c : ascii) : bool :=
  let n := N_of_ascii c in
  ((9 <=? n) && (n <=? 13) || (28 <=? n) && (n <=? 32)
   || (n =? 133) || (n =? 160))%N.

(** [str.isalnum] of one character. *)
Definition isalnum (c : ascii) : bool :=
  let n := N_of_ascii c in
  ((48 <=? n) && (n <=? 57) || (65 <=? n) && (n <=? 90)
   || (97 <=? n) && (n <=? 122) || (n =? 170) || (178 <=? n) && (n <=? 179)
   || (n =? 181) || (185 <=? n) && (n <=? 186) || (188 <=? n) && (n <=? 190)
   || (192 <=? n) && (n <=? 214) || (216 <=? n) && (n <=? 246)
   || (248 <=? n) && (n <=? 255))%N.

(** [str.lower] of one character. *)
Definition lower_char (c : ascii) : ascii :=
  let n := N_of_ascii c in
  if ((65 <=? n) && (n <=? 90)
      || (192 <=? n) && (n <=? 222) && negb (n =? 215))%N
  then ascii_of_N (n + 32) else c.

Fixpoint lower (s : string) : string :=
  match s with
  | EmptyString => EmptyString
  | String c s' => String (lower_char c) (lower s')
  end.

Fixpoint lstrip (s : string) : string :=
  match s with
  | EmptyString => EmptyString
  | String c s' => if isspace c then lstrip s' else s
  end.

Fixpoint rstrip (s : string) : string :=
  match s with
  | EmptyString => EmptyString
  | String c s' =>
      match rstrip s' with
      | EmptyString => if isspace c then EmptyString else String c EmptyString
      | t => String c t
      end
  end.

Definition strip (s : string) : string := lstrip (rstrip s).

Definition startswith (s p : string) : bool := String.prefix p s.

Fixpoint endswith_char (s : string) (c : ascii) : bool :=
  match s with
  | EmptyString => false
  | String d EmptyString => bool_decide (d = c)
  | String _ s' => endswith_char s' c
  end.

(** ["".join(c for c in s if p(c))] *)
Fixpoint keep (p : ascii -> bool) (s : string) : string :=
  match s with
  | EmptyString => EmptyString
  | String c s' => if p c then String c (keep p s') else keep p s'
  end.

Fixpoint chars (s : string) : list ascii :=
  match s with
  | EmptyString => []
  | String c s' => c :: chars s'
  end.

(** [sorted] on a list of [str]: ascending by code point. *)
Definition sorted (l : list string) : list string :=
  merge_sort String.le l.

(** [os.path.join(a, b)] of [posixpath]. *)
Definition os_path_join (a b : string) : string :=
  if startswith b "/" then b
  else if bool_decide (a = "") || endswith_char a "/" then a ++ b
  else a ++ "/" ++ b.

End PyStr.

(** ** Cells, labels and frames *)

(** A Python value held in a cell or used as a column label. *)
Inductive cell : Type :=
| NaN
| Str (s : string)
| Num (z : Z).

#[global] Instance cell_eq_dec : EqDecision cell.
Proof. solve_decision. Defined.

(** [pd.notna] *)
Definition notna (c : cell) : bool :=
  match c with NaN => false | _ => true end.

(** [str(val)] *)
Definition py_str (c : cell) : string :=
  match c with
  | NaN => "nan"
  | Str s => s
  | Num z => pretty z
  end.

(** A frame: its column labels, and its rows as lists of cells in the
    order of the labels. *)
Record DataFrame : Type := {
  columns : list cell;
  rows : list (list cell)
}.

#[global] Instance DataFrame_eq_dec : EqDecision DataFrame.
Proof. solve_decision. Defined.

(** The grid of [read_excel(arquivo, header=None)]. *)
Abbreviation sheet := (list (list cell)) (only parsing).

(** Every row is as wide as the header. *)
Definition well_shaped (df : DataFrame) : Prop :=
  Forall (fun r => length r = length (columns df)) (rows df).

(** [range(a, a + n)] as a column of integers. *)
Definition range_from (a : Z) (n : nat) : list cell :=
  (fun i => Num (a + Z.of_nat i)) <$> seq 0 n.

(** Elements of [l] at the positions where [m] is true. *)
Fixpoint mask_filter {A : Type} (m : list bool) (l : list A) : list A :=
  match m, l with
  | b :: m', x :: l' =>
      if b then x :: mask_filter m' l' else mask_filter m' l'
  | _, _ => []
  end.

(** The cells of row [r] under the label [lab]. *)
Definition under (lab : cell) (labels r : list cell) : list cell :=
  mask_filter ((fun l => bool_decide (l = lab)) <$> labels) r.

(** The cell of row [r] in the first column labelled [lab]; missing when
    there is no such column. *)
Definition campo (lab : cell) (labels r : list cell) : cell :=
  default NaN (head (under lab labels r)).

(** What [df[lab]] is: nothing, a series, or a frame when several columns
    share the label. *)
Inductive lookup_result : Type :=
| NoColumn
| OneColumn (serie : list cell)
| ManyColumns.

Definition getitem (lab : cell) (df : DataFrame) : lookup_result :=
  match under lab (columns df) (columns df) with
  | [] => NoColumn
  | [_] => OneColumn (campo lab (columns df) <$> rows df)
  | _ => ManyColumns
  end.

(** [df[names]] for a list of labels that are all present: the columns
    under each label, in the order of [names]. *)
Definition getitem_list (names : list cell) (df : DataFrame) : DataFrame :=
  {| columns := names ≫= (fun n => under n (columns df) (columns df));
     rows := (fun r => names ≫= (fun n => under n (columns df) r)) <$> rows df |}.

(** [df[mask]] for a boolean series: the rows where the mask holds. *)
Definition boolean_index (mask : list bool) (df : DataFrame) : DataFrame :=
  {| columns := columns df; rows := mask_filter mask (rows df) |}.

(** [df.loc[:, mask]] *)
Definition loc_columns (mask : list bool) (df : DataFrame) : DataFrame :=
  {| columns := mask_filter mask (columns df);
     rows := mask_filter mask <$> rows df |}.

(** [df[lab] = vals] with one value per row: every column under [lab]
    takes the values, and a new last column is made when there is none. *)
Definition setitem (lab : cell) (vals : list cell) (df : DataFrame)
  : DataFrame :=
  if bool_decide (lab ∈ columns df)
  then {| columns := columns df;
          rows := zip_with
                    (fun v r =>
                       zip_with (fun l c => if bool_decide (l = lab) then v else c)
                                (columns df) r)
                    vals (rows df) |}
  else {| columns := columns df ++ [lab];
          rows := zip_with (fun v r => r ++ [v]) vals (rows df) |}.

(** [df.dropna(how='all')] *)
Definition dropna_all (df : DataFrame) : DataFrame :=
  {| columns := columns df;
     rows := filter (fun r => existsb notna r) (rows df) |}.

(** [df.reindex(columns=target)]: fails on duplicate labels; a label of
    [target] the frame lacks gives a column of [NaN]. *)
Definition reindex_columns (target : list cell) (df : DataFrame)
  : option DataFrame :=
  if bool_decide (NoDup (columns df))
  then Some {| columns := target;
               rows := (fun r => (fun lab => campo lab (columns df) r) <$> target)
                         <$> rows df |}
  else None.

(** ** DataProcessor *)

(** The column name with its c-cedilla (231) and a-tilde (227). *)
Definition Manutencao : string :=
  "Manuten" ++ String (ascii_of_nat 231) (String (ascii_of_nat 227) "o").

(** The label of the derived sequence column. *)
Definition Quantidade : cell := Str "Quantidade".

(** [self.colunas_esperadas] *)
Definition colunas_esperadas : list cell :=
  [Str "Item"; Str "Chassi"; Str "Modelo"; Str "Cliente"; Str "Cidade";
   Str "Status Funcionamento"; Str Manutencao; Quantidade].

(** The Python exceptions the modelled code can meet; [OtherError] is an
    exception of a library, by the name of its class. *)
Inductive exn : Type :=
| AttributeError
| KeyError (k : cell)
| TypeError
| ValueError
| OtherError (classe : string).

(** How a call ends: with a value, or with an exception. *)
Inductive outcome (A : Type) : Type :=
| Returned (a : A)
| Raised (e : exn).
Arguments Returned {A} a.
Arguments Raised {A} e.

(** The texts [processar_arquivo] and [validar_colunas] return. *)
Inductive message : Type :=
| MsgTodasPresentes                      (* Todas as colunas estao presentes *)
| MsgFaltantes (faltantes : list cell)   (* Colunas faltantes: ... *)
| MsgSemCabecalho                        (* Nao foi possivel encontrar ... 'Item' *)
| MsgErroValidacao (m : message) (encontradas : list cell)
| MsgSucesso                             (* Arquivo processado com sucesso! *)
| MsgErroProcessar (e : exn).            (* Erro ao processar arquivo: ... *)

(** [validar_colunas]; the labels are all text where it is called. *)
Definition validar_colunas (df : DataFrame) : bool * message :=
  let colunas_atuais :=
    filter (fun col => negb (PyStr.startswith (py_str col) "Unnamed"))
           (columns df) in
  let colunas_faltantes :=
    filter (fun col => col ∉ colunas_atuais) colunas_esperadas in
  match colunas_faltantes with
  | [] => (true, MsgTodasPresentes)
  | _ => (false, MsgFaltantes colunas_faltantes)
  end.

(** [row_values] of the header scan: the text of every non-blank cell,
    lowered then stripped. *)
Definition row_values (row : list cell) : list string :=
  (fun val => PyStr.strip (PyStr.lower (py_str val)))
    <$> filter (fun val => notna val) row.

(** ['item' in row_values] *)
Definition has_item (row : list cell) : bool :=
  bool_decide ("item" ∈ row_values row).

(** The loop over [df_temp.iterrows()], counting rows from [idx]. *)
Fixpoint find_header_from (idx : nat) (df_temp : sheet) : option nat :=
  match df_temp with
  | [] => None
  | row :: rest =>
      if has_item row then Some idx else find_header_from (S idx) rest
  end.

(** [header_row] after the loop; [None] when no line has the word. *)
Definition find_header (df_temp : sheet) : option nat :=
  find_header_from 0 df_temp.

(** Column labels pandas gives a header line: a blank cell at position [i]
    is called [Unnamed: i], and a label seen [k] times before gets the
    suffix [.k]. *)
Fixpoint header_labels (i : nat) (seen line : list cell) : list cell :=
  match line with
  | [] => []
  | c :: rest =>
      let name := match c with
                  | NaN => Str ("Unnamed: " ++ pretty i)
                  | _ => c
                  end in
      let k := length (filter (fun s => s = name) seen) in
      (match k with
       | O => name
       | _ => Str (py_str name ++ "." ++ pretty k)
       end) :: header_labels (S i) (name :: seen) rest
  end.

(** [pd.read_excel(arquivo, header=h)]: line [h] names the columns, the
    lines below it are the rows, each as wide as line [h] (which every
    line of a grid is). The cells are those of the grid: what the second
    reading makes of a column of numerals or of booleans is left out, see
    [texto_simples]. *)
Definition read_excel_header (arquivo : sheet) (h : nat) : DataFrame :=
  let line := default [] (arquivo !! h) in
  {| columns := header_labels 0 [] line;
     rows := resize (length line) NaN <$> drop (S h) arquivo |}.

(** [~df.columns.str.contains('^Unnamed')]: a label that is not text gives
    a missing value, which [~] rejects. *)
Fixpoint not_unnamed (labels : list cell) : option (list bool) :=
  match labels with
  | [] => Some []
  | Str s :: rest =>
      match not_unnamed rest with
      | Some m => Some (negb (PyStr.startswith s "Unnamed") :: m)
      | None => None
      end
  | _ :: _ => None
  end.

(** [df.columns = [str(col).strip() for col in df.columns]] *)
Definition strip_columns (df : DataFrame) : DataFrame :=
  {| columns := (fun col => Str (PyStr.strip (py_str col))) <$> columns df;
     rows := rows df |}.

(** The loop [df[coluna] = df[coluna].astype(str)] over the columns other
    than Quantidade. *)
Definition astype_str (df : DataFrame) : DataFrame :=
  {| columns := columns df;
     rows := (fun r =>
                zip_with (fun coluna c =>
                            if bool_decide (coluna = Quantidade) then c
                            else Str (py_str c))
                         (columns df) r)
               <$> rows df |}.

(** The frames of [processar_arquivo]: what [self.df] is bound to when the
    call ends ([None]: left as it was) and the pair returned. *)
Definition processar (arquivo : sheet) : option DataFrame * (bool * message) :=
  match find_header arquivo with
  | None => (None, (false, MsgSemCabecalho))
  | Some header_row =>
      let df0 := read_excel_header arquivo header_row in
      match not_unnamed (columns df0) with
      | None => (Some df0, (false, MsgErroProcessar TypeError))
      | Some mask =>
          let df2 := strip_columns (loc_columns mask df0) in
          let colunas_presentes :=
            filter (fun col => col ∈ columns df2) colunas_esperadas in
          let df4 := dropna_all (getitem_list colunas_presentes df2) in
          let df5 := astype_str df4 in
          let df6 := setitem Quantidade (range_from 1 (length (rows df5))) df5 in
          match reindex_columns colunas_esperadas df6 with
          | None => (Some df6, (false, MsgErroProcessar ValueError))
          | Some df7 =>
              match validar_colunas df7 with
              | (true, _) => (Some df7, (true, MsgSucesso))
              | (false, mensagem) =>
                  (Some df7, (false, MsgErroValidacao mensagem (columns df7)))
              end
          end
      end
  end.

(** [Series.unique()]: the distinct values, each at its first occurrence;
    missing values count as one value. *)
Fixpoint unique_from (seen l : list cell) : list cell :=
  match l with
  | [] => []
  | x :: l' =>
      if bool_decide (x ∈ seen) then unique_from seen l'
      else x :: unique_from (x :: seen) l'
  end.

Definition unique (l : list cell) : list cell := unique_from [] l.

(** [Series.isin(valores)] for a list of texts. *)
Definition isin (valores : list string) (c : cell) : bool :=
  match c with
  | Str s => bool_decide (s ∈ valores)
  | _ => false
  end.

(** [serie == valor], cell by cell: a missing value equals nothing. *)
Definition py_eq (c valor : cell) : bool :=
  match c with
  | NaN => false
  | _ => bool_decide (c = valor)
  end.

#[global] Instance DataFrame_inhabited : Inhabited DataFrame :=
  populate {| columns := []; rows := [] |}.

(** The frames alive in the interpreter, by reference, and the attribute
    [self.df]: a reference, or [None]. *)
Record DataProcessor : Type := {
  heap : gmap nat DataFrame;
  self_df : option nat
}.

(** [DataProcessor()] *)
Definition init : DataProcessor := {| heap := ∅; self_df := None |}.

(** The frame [self.df] refers to; [None] when [self.df] is [None]
    (references made by the code always point into the store). *)
Definition held (self : DataProcessor) : option DataFrame :=
  self_df self ≫= fun l => heap self !! l.

(** A new object holding [d]. *)
Definition alloc (d : DataFrame) (h : gmap nat DataFrame)
  : gmap nat DataFrame * nat :=
  let l := fresh (dom h) in (<[l := d]> h, l).

(** [processar_arquivo]: the frame of [processar] becomes a new object
    and [self.df] is bound to it; the objects it replaces are not touched. *)
Definition processar_arquivo (arquivo : sheet) (self : DataProcessor)
  : DataProcessor * (bool * message) :=
  match processar arquivo with
  | (None, resposta) => (self, resposta)
  | (Some d, resposta) =>
      let (h, l) := alloc d (heap self) in
      ({| heap := h; self_df := Some l |}, resposta)
  end.

(** The truth value of a [str]: false for the empty text only. *)
Definition truthy (s : string) : bool :=
  match s with EmptyString => false | _ => true end.

(** The body of the [try] of [get_valores_unicos]; [unique] is a method of
    a series, so a label held by several columns ends in an exception. *)
Definition valores_unicos_try (coluna : string) (self : DataProcessor)
  : outcome (list string) :=
  match held self with
  | None => Returned []
  | Some d =>
      if bool_decide (Str coluna ∈ columns d) then
        match getitem (Str coluna) d with
        | OneColumn serie =>
            let valores := unique serie in
            Returned
              (PyStr.sorted
                 ((fun val => PyStr.strip (py_str val))
                    <$> filter
                          (fun val => notna val && truthy (PyStr.strip (py_str val)))
                          valores))
        | ManyColumns => Raised AttributeError
        | NoColumn => Raised (KeyError (Str coluna))
        end
      else Returned []
  end.

(** [get_valores_unicos]: the [except] branch answers the empty list. *)
Definition get_valores_unicos (coluna : string) (self : DataProcessor)
  : outcome (list string) :=
  match valores_unicos_try coluna self with
  | Returned valores => Returned valores
  | Raised _ => Returned []
  end.

(** A filter: field name and accepted values, in the order of the dict. *)
Abbreviation filtros_t := (list (string * list cell)) (only parsing).

(** The loop of [filtrar_dados]; [df_filtrado] is a reference, rebound to
    a new object by every selection. An unknown column is a [KeyError]; a
    label held by several columns gives a frame-shaped mask that the
    selection cannot align. *)
Fixpoint aplicar_filtros (filtros : filtros_t) (df_filtrado : nat)
    (h : gmap nat DataFrame) : gmap nat DataFrame * outcome nat :=
  match filtros with
  | [] => (h, Returned df_filtrado)
  | (coluna, valor) :: rest =>
      match valor with
      | [] => aplicar_filtros rest df_filtrado h
      | _ =>
          let valores_filtro := py_str <$> valor in
          let d := h !!! df_filtrado in
          match getitem (Str coluna) d with
          | OneColumn serie =>
              let (h', l) :=
                alloc (boolean_index (isin valores_filtro <$> serie) d) h in
              aplicar_filtros rest l h'
          | NoColumn => (h, Raised (KeyError (Str coluna)))
          | ManyColumns => (h, Raised ValueError)
          end
      end
  end.

(** The body of the [try] of [filtrar_dados]. *)
Definition filtrar_try (filtros : filtros_t) (self : DataProcessor)
  : gmap nat DataFrame * outcome nat :=
  match held self with
  | None => (heap self, Raised AttributeError)
  | Some d =>
      let (h1, l1) := alloc d (heap self) in
      match aplicar_filtros filtros l1 h1 with
      | (h2, Returned l2) =>
          let d2 := h2 !!! l2 in
          (<[l2 := setitem Quantidade (range_from 1 (length (rows d2))) d2]> h2,
           Returned l2)
      | (h2, Raised e) => (h2, Raised e)
      end
  end.

(** [filtrar_dados]: the reference it returns, or the exception that
    leaves it. The handler runs [self.df.copy()] on the store as the [try]
    left it. *)
Definition filtrar_dados (filtros : filtros_t) (self : DataProcessor)
  : DataProcessor * outcome nat :=
  match filtrar_try filtros self with
  | (h, Returned l) => ({| heap := h; self_df := self_df self |}, Returned l)
  | (h, Raised _) =>
      match self_df self ≫= fun l => h !! l with
      | None => ({| heap := h; self_df := self_df self |}, Raised AttributeError)
      | Some d =>
          let (h', l) := alloc d h in
          ({| heap := h'; self_df := self_df self |}, Returned l)
      end
  end.

(** The frame [filtrar_dados] returns. *)
Definition Filter (filtros : filtros_t) (self : DataProcessor)
  : outcome DataFrame :=
  match filtrar_dados filtros self with
  | (self', Returned l) => Returned (heap self' !!! l)
  | (_, Raised e) => Raised e
  end.

(** ** PDFGenerator *)

(** What [doc.build] is given: the customer of the title line, the header
    row and the formatted body rows. *)
Record Document : Type := {
  titulo : string;
  headers : list cell;
  corpo : list (list string)
}.

(** The output directory and the files written so far, oldest first. *)
Record PDFGenerator : Type := {
  output_dir : string;
  escritos : list (string * Document)
}.

(** [c.isalnum() or c in (' ', '-', '_')] *)
Definition safe_char (c : ascii) : bool :=
  PyStr.isalnum c || bool_decide (c ∈ [" "; "-"; "_"]%char).

(** [nome_arquivo] of [criar_pdf_por_cliente]. *)
Definition nome_arquivo (cliente : string) : string :=
  PyStr.strip (PyStr.keep safe_char cliente).

Section reportlab.

(** reportlab and the file system, from the title paragraph (line 63) to
    [doc.build] (line 132): [None] when the file is written, and otherwise
    the exception that leaves [criar_pdf_por_cliente], such as the
    [ValueError] of [Paragraph] on a title or a cell that is not valid
    markup ([A<B]). It is some function of the path and of what the
    document holds; the statements hold for every such function. *)
Variable construir : string → Document → option exn.

(** [criar_pdf_por_cliente]: the rows are selected first (line 42), then
    the name is read character by character (line 45), which only a text
    allows; then the document is built, and when that succeeds the file is
    written and its path returned. *)
Definition criar_pdf_por_cliente (df : DataFrame) (cliente : cell)
    (self : PDFGenerator) : PDFGenerator * outcome string :=
  match getitem (Str "Cliente") df with
  | NoColumn => (self, Raised (KeyError (Str "Cliente")))
  | ManyColumns => (self, Raised ValueError)
  | OneColumn serie =>
      let dados_cliente :=
        boolean_index ((fun c => py_eq c cliente) <$> serie) df in
      match cliente with
      | Str s =>
          let filename :=
            PyStr.os_path_join (output_dir self) (nome_arquivo s ++ ".pdf") in
          let doc := {| titulo := s;
                        headers := columns dados_cliente;
                        corpo := (fun row : list cell => py_str <$> row)
                                   <$> rows dados_cliente |} in
          match construir filename doc with
          | None =>
              ({| output_dir := output_dir self;
                  escritos := escritos self ++ [(filename, doc)] |},
               Returned filename)
          | Some e => (self, Raised e)
          end
      | _ => (self, Raised TypeError)
      end
  end.

(** The loop of [gerar_pdfs_todos_clientes]: the first exception ends it,
    with the files written so far left in place. *)
Fixpoint gerar_loop (clientes : list cell) (df : DataFrame)
    (arquivos_gerados : list string) (self : PDFGenerator)
  : PDFGenerator * outcome (list string) :=
  match clientes with
  | [] => (self, Returned arquivos_gerados)
  | cliente :: rest =>
      match criar_pdf_por_cliente df cliente self with
      | (self', Returned arquivo) =>
          gerar_loop rest df (arquivos_gerados ++ [arquivo]) self'
      | (self', Raised e) => (self', Raised e)
      end
  end.

(** [gerar_pdfs_todos_clientes] *)
Definition gerar_pdfs_todos_clientes (df : DataFrame) (self : PDFGenerator)
  : PDFGenerator * outcome (list string) :=
  match getitem (Str "Cliente") df with
  | NoColumn => (self, Raised (KeyError (Str "Cliente")))
  | ManyColumns => (self, Raised AttributeError)
  | OneColumn serie => gerar_loop (unique serie) df [] self
  end.

End reportlab.

(** ** Vocabulary of the statements *)

(** The column of [df] labelled [lab], read row by row. *)
Definition serie_de (lab : cell) (df : DataFrame) : list cell :=
  campo lab (columns df) <$> rows df.

(** Lines 52-66 of [processar_arquivo] on the frame with trimmed labels:
    the expected columns, blank rows dropped, text cast, rows numbered. *)
Definition numerada (df2 : DataFrame) : DataFrame :=
  let colunas_presentes :=
    filter (fun col => col ∈ columns df2) colunas_esperadas in
  let df5 := astype_str (dropna_all (getitem_list colunas_presentes df2)) in
  setitem Quantidade (range_from 1 (length (rows df5))) df5.

(** [T] is the table a successful [processar_arquivo] leaves in [self.df]. *)
Definition loads (arquivo : sheet) (T : DataFrame) : Prop :=
  ∃ self self' mensagem,
    processar_arquivo arquivo self = (self', (true, mensagem))
    ∧ held self' = Some T.

(** A cell that reads [item] once trimmed and lowercased. *)
Definition item_cell (c : cell) : Prop :=
  c ≠ NaN ∧ PyStr.lower (PyStr.strip (py_str c)) = "item".

(** Text without leading or trailing whitespace. *)
Definition trimmed (s : string) : Prop :=
  PyStr.lstrip s = s ∧ PyStr.rstrip s = s.

(** A cell that holds text. *)
Definition is_text (c : cell) : Prop := ∃ s, c = Str s.

(** The labels of the source that survive to the selection of the expected
    columns: the named header cells, trimmed. *)
Definition source_columns (arquivo : sheet) : list cell :=
  match find_header arquivo with
  | None => []
  | Some h =>
      let df0 := read_excel_header arquivo h in
      match not_unnamed (columns df0) with
      | None => []
      | Some mask => columns (strip_columns (loc_columns mask df0))
      end
  end.

(** A header line is found, it holds no number, and no expected name is
    the trimmed text of two of its cells. *)
Definition header_valido (arquivo : sheet) : Prop :=
  ∃ h line,
    find_header arquivo = Some h ∧ arquivo !! h = Some line
    ∧ Forall (fun c => ∀ z, c ≠ Num z) line
    ∧ NoDup (filter (fun c => c ∈ colunas_esperadas) (source_columns arquivo)).

(** Whether row [r] passes every restriction of [filtros]. *)
Fixpoint aceita (filtros : filtros_t) (labels r : list cell) : bool :=
  match filtros with
  | [] => true
  | (coluna, valor) :: rest =>
      match valor with
      | [] => aceita rest labels r
      | _ => isin (py_str <$> valor) (campo (Str coluna) labels r)
             && aceita rest labels r
      end
  end.

(** The selection loop of [filtrar_dados] on frames as values. *)
Fixpoint selecionar (filtros : filtros_t) (d : DataFrame) : outcome DataFrame :=
  match filtros with
  | [] => Returned d
  | (coluna, valor) :: rest =>
      match valor with
      | [] => selecionar rest d
      | _ =>
          match getitem (Str coluna) d with
          | OneColumn serie =>
              selecionar rest
                (boolean_index (isin (py_str <$> valor) <$> serie) d)
          | NoColumn => Raised (KeyError (Str coluna))
          | ManyColumns => Raised ValueError
          end
      end
  end.

(** The frame [filtrar_dados] answers with when [self.df] holds [d]. *)
Definition filtrado (filtros : filtros_t) (d : DataFrame) : DataFrame :=
  match selecionar filtros d with
  | Returned d2 => setitem Quantidade (range_from 1 (length (rows d2))) d2
  | Raised _ => d
  end.

(** The rows of [df] whose Cliente cell is the text [s]. *)
Definition rows_of_cliente (df : DataFrame) (s : string) : list (list cell) :=
  filter (fun r => campo (Str "Cliente") (columns df) r = Str s) (rows df).

(** The file [s.pdf] under directory [out], [s] made safe. *)
Definition caminho (out s : string) : string :=
  PyStr.os_path_join out (nome_arquivo s ++ ".pdf").

(** The document of customer [s]: its rows of [df], cell by cell as text,
    under the labels of [df]. *)
Definition documento (df : DataFrame) (s : string) : Document :=
  {| titulo := s;
     headers := columns df;
     corpo := (fun row : list cell => py_str <$> row) <$> rows_of_cliente df s |}.

#[global] Instance is_text_dec c : Decision (is_text c).
Proof.
  destruct c as [|s|z]; [right|left|right];
    [by intros [? ?]|by eexists|by intros [? ?]].
Defined.

(** *** A workbook used to run the code

    A blank line, a header line lacking four of the expected columns, two
    rows for customers that differ by a leading space, a blank line and a
    row with blanks; the source carries its own Quantidade values. Every
    text in it has a letter that no numeral has, so that the second
    reading delivers it as it is. *)
Definition planilha_exemplo : sheet :=
  [[NaN; NaN; NaN; NaN];
   [Str "Item"; Str "Cliente"; Str "Cidade"; Str "Quantidade"];
   [Str "M1"; Str "Acme"; Str "Lisboa"; Num 7];
   [Str "M2"; Str " Acme"; Str "Porto"; Num 9];
   [NaN; NaN; NaN; NaN];
   [Str "M3"; Str "Beta"; NaN; NaN]].

(** The table [processar_arquivo] makes of it. *)
Definition tabela_exemplo : DataFrame :=
  {| columns := colunas_esperadas;
     rows := [[Str "M1"; NaN; NaN; Str "Acme"; Str "Lisboa"; NaN; NaN; Num 1];
              [Str "M2"; NaN; NaN; Str " Acme"; Str "Porto"; NaN; NaN; Num 2];
              [Str "M3"; NaN; NaN; Str "Beta"; Str "nan"; NaN; NaN; Num 3]] |}.

(** The processor after loading it into a new [DataProcessor()]. *)
Definition processador_exemplo : DataProcessor :=
  fst (processar_arquivo planilha_exemplo init).

(** A workbook with an Item column only. *)
Definition planilha_so_item : sheet := [[Str "Item"]; [Str "a"]].

(** [PDFGenerator()] with its default directory, nothing written yet. *)
Definition gerador_exemplo : PDFGenerator :=
  {| output_dir := "relatorios"; escritos := [] |}.

(** A reportlab that refuses the documents whose title has the character
    that opens a tag, and writes the others. *)
Definition construir_exemplo (filename : string) (doc : Document)
  : option exn :=
  if bool_decide ("<"%char ∈ PyStr.chars (titulo doc)) then Some ValueError
  else None.

(** A table with a customer whose name is not valid markup, one whose
    cell is missing, and two ordinary ones. *)
Definition tabela_marcada : DataFrame :=
  {| columns := colunas_esperadas;
     rows := [[Str "M1"; NaN; NaN; Str "Acme"; NaN; NaN; NaN; Num 1];
              [Str "M2"; NaN; NaN; Str "A<B"; NaN; NaN; NaN; Num 2];
              [Str "M3"; NaN; NaN; Str "Beta"; NaN; NaN; NaN; Num 3]] |}.

(** *** The workbook, position by position *)

(** The frame of line 50 of [processar_arquivo]: the named columns of the
    sheet below its header line, labels trimmed. *)
Definition fonte (arquivo : sheet) : DataFrame :=
  match find_header arquivo with
  | None => inhabitant
  | Some h =>
      let df0 := read_excel_header arquivo h in
      match not_unnamed (columns df0) with
      | None => inhabitant
      | Some mask => strip_columns (loc_columns mask df0)
      end
  end.

(** A row with a non-blank cell under some expected name among [labels]:
    the rows [dropna(how='all')] keeps after the selection of line 55. *)
Definition linha_util (labels r : list cell) : bool :=
  existsb (fun lab => notna (campo lab labels r))
          (filter (fun col => col ∈ labels) colunas_esperadas).

(** The name under which the load knows each position of a header line:
    the label pandas gives the cell, trimmed (line 50); none for a
    position pandas calls Unnamed, which line 47 drops. *)
Definition nomes (line : list cell) : list (option cell) :=
  (fun l => if PyStr.startswith (py_str l) "Unnamed" then None
            else Some (Str (PyStr.strip (py_str l))))
    <$> header_labels 0 [] line.

(** The labels of line 50 for a header line and the mask of line 47. *)
Definition colunas_lidas (line : list cell) (mask : list bool) : list cell :=
  (fun col => Str (PyStr.strip (py_str col)))
    <$> mask_filter mask (header_labels 0 [] line).

(** A line below the header as a row of the frame of line 47. *)
Definition linha_lida (line : list cell) (mask : list bool) (r : list cell)
  : list cell :=
  mask_filter mask (resize (length line) NaN r).

(** The cell of a line at a position; blank where the line is shorter. *)
Definition celula (i : nat) (r : list cell) : cell := default NaN (r !! i).

(** A line with a non-blank cell at a position that bears an expected
    name in the header line [line]. *)
Definition linha_com_dado (line r : list cell) : bool :=
  existsb (fun i => match nomes line !! i with
                    | Some (Some lab) =>
                        bool_decide (lab ∈ colunas_esperadas)
                        && notna (celula i r)
                    | _ => false
                    end)
          (seq 0 (length line)).

(** A header line the load accepts: no number in it, and no expected name
    at two of its positions. *)
Definition linha_valida (line : list cell) : Prop :=
  Forall (fun c => ∀ z, c ≠ Num z) line
  ∧ NoDup (filter (fun lab => lab ∈ colunas_esperadas) (omap id (nomes line))).

(** A text with a letter that no numeral, no boolean word and no marker of
    a missing value has: the second reading of the workbook delivers the
    cell, and with it its column, as text. *)
Definition texto_simples (s : string) : bool :=
  existsb (fun c => bool_decide (c ∈ PyStr.chars "bcghkmpvwzBCGHKMPVWZ"))
          (PyStr.chars s).

(** What [os.path.join] puts between a directory and a relative name. *)
Definition separador (dir : string) : string :=
  if bool_decide (dir = "") || PyStr.endswith_char dir "/" then "" else "/".

(** The file of a customer: the safe name with [.pdf], under the output
    directory. *)
Definition arquivo_de (self : PDFGenerator) (s : string) : string :=
  output_dir self +:+ separador (output_dir self) +:+ nome_arquivo s
  +:+ ".pdf".

(** The customers whose documents reportlab builds. *)
Definition aceitos (construir : string → Document → option exn)
    (df : DataFrame) (self : PDFGenerator) (ss : list string) : Prop :=
  ∀ s, s ∈ ss → construir (arquivo_de self s) (documento df s) = None.

(** A customer that ends the run, with the exception it ends with: one
    that is not text, or one whose document reportlab refuses. *)
Definition recusado (construir : string → Document → option exn)
    (df : DataFrame) (self : PDFGenerator) (c : cell) (e : exn) : Prop :=
  (¬ is_text c ∧ e = TypeError)
  ∨ (∃ s, c = Str s
          ∧ construir (arquivo_de self s) (documento df s) = Some e).

(** ** Python text: lemmas *)

Module PyStrFacts.
Import PyStr.

Lemma isspace_lower_char c : isspace (lower_char c) = isspace c.
Proof. destruct c as [[] [] [] [] [] [] [] []]; reflexivity. Qed.

Lemma lower_lstrip s : lower (lstrip s) = lstrip (lower s).
Proof.
  induction s as [|c s IH]; simpl; [done|].
  rewrite isspace_lower_char. by destruct (isspace c).
Qed.

Lemma lower_rstrip s : lower (rstrip s) = rstrip (lower s).
Proof.
  induction s as [|c s IH]; simpl; [done|].
  rewrite <- IH, isspace_lower_char.
  destruct (rstrip s); simpl; [by destruct (isspace c)|done].
Qed.

Lemma lower_strip s : lower (strip s) = strip (lower s).
Proof. unfold strip. by rewrite lower_lstrip, lower_rstrip. Qed.

Lemma lstrip_idem s : lstrip (lstrip s) = lstrip s.
Proof.
  induction s as [|c s IH]; simpl; [done|].
  destruct (isspace c) eqn:E; [done|]. simpl. by rewrite E.
Qed.

Lemma rstrip_idem s : rstrip (rstrip s) = rstrip s.
Proof.
  induction s as [|c s IH]; simpl; [done|].
  destruct (rstrip s) as [|d t] eqn:E.
  - destruct (isspace c) eqn:Ec; simpl; [done|]. by rewrite Ec.
  - simpl in *. by rewrite IH.
Qed.

Lemma rstrip_lstrip_fixed s : rstrip s = s → rstrip (lstrip s) = lstrip s.
Proof.
  induction s as [|c s IH]; simpl; [done|].
  intros H. destruct (isspace c) eqn:Ec.
  - apply IH. destruct (rstrip s) as [|d t] eqn:E.
    + discriminate.
    + congruence.
  - simpl. rewrite Ec. exact H.
Qed.

Lemma strip_trimmed s : trimmed (strip s).
Proof.
  split; unfold strip.
  - apply lstrip_idem.
  - apply rstrip_lstrip_fixed, rstrip_idem.
Qed.

Lemma chars_keep p s : chars (keep p s) = filter (fun c => p c) (chars s).
Proof.
  induction s as [|c s IH]; simpl; [done|].
  rewrite filter_cons. destruct (p c); simpl; [|done].
  - by rewrite IH.
Qed.

Lemma chars_lstrip s c : c ∈ chars (lstrip s) → c ∈ chars s.
Proof.
  induction s as [|d s IH]; simpl; [done|].
  destruct (isspace d); [|done]. intros H. right. auto.
Qed.

Lemma chars_rstrip s c : c ∈ chars (rstrip s) → c ∈ chars s.
Proof.
  revert c. induction s as [|d s IH]; simpl; [done|]. intros c.
  destruct (rstrip s) as [|e t] eqn:E.
  - destruct (isspace d); simpl; [by intros ?%elem_of_nil|].
    intros ->%list_elem_of_singleton. by left.
  - simpl. intros [->|H]%elem_of_cons; [by left|]. right. apply IH. exact H.
Qed.

Lemma chars_strip s c : c ∈ chars (strip s) → c ∈ chars s.
Proof. intros H. by apply chars_rstrip, chars_lstrip. Qed.

End PyStrFacts.

(** ** Frames: lemmas *)

Section frame_facts.
Implicit Types (lab : cell) (labels r : list cell) (df : DataFrame).

Lemma mask_filter_fmap {A B} (f : A → B) m (l : list A) :
  mask_filter m (f <$> l) = f <$> mask_filter m l.
Proof.
  revert l. induction m as [|b m IH]; intros [|x l]; simpl; try done.
  destruct b; simpl; by rewrite IH.
Qed.

Lemma mask_filter_length {A B} m (l : list A) (k : list B) :
  length l = length k → length (mask_filter m l) = length (mask_filter m k).
Proof.
  revert l k. induction m as [|b m IH]; intros [|x l] [|y k] H;
    simpl in *; try done.
  destruct b; simpl; auto.
Qed.

Lemma mask_filter_elem {A} m (l : list A) x : x ∈ mask_filter m l → x ∈ l.
Proof.
  revert l. induction m as [|b m IH]; intros [|y l]; simpl;
    try (by intros ?%elem_of_nil).
  destruct b; [intros [->|H]%elem_of_cons|intros H];
    [by left|right; auto..].
Qed.

Lemma mask_filter_self {A} (p : A → bool) (l : list A) :
  mask_filter (p <$> l) l = filter (fun x => p x) l.
Proof.
  induction l as [|x l IH]; [done|].
  rewrite filter_cons, fmap_cons. cbn [mask_filter]. rewrite IH.
  destruct (p x); by case_decide.
Qed.

Lemma under_fmap (f : cell → cell) lab labels :
  under lab labels (f <$> labels) = f <$> under lab labels labels.
Proof. apply mask_filter_fmap. Qed.

Lemma under_length lab labels r :
  length r = length labels →
  length (under lab labels r) = length (under lab labels labels).
Proof. apply mask_filter_length. Qed.

Lemma under_self_eq lab labels x : x ∈ under lab labels labels → x = lab.
Proof.
  unfold under. induction labels as [|l labels IH]; simpl; [by intros ?%elem_of_nil|].
  case_bool_decide as E; [intros [->|Hx]%elem_of_cons|intros Hx]; auto.
Qed.

Lemma under_absent lab labels r : lab ∉ labels → under lab labels r = [].
Proof.
  unfold under. revert r. induction labels as [|l labels IH];
    intros [|c r] H; simpl; try done.
  all: apply not_elem_of_cons in H as [H1 H2].
  all: rewrite ?bool_decide_eq_false_2 by done; auto.
Qed.

Lemma under_present lab labels r :
  lab ∈ labels → length r = length labels → under lab labels r ≠ [].
Proof.
  unfold under. revert r. induction labels as [|l labels IH];
    intros [|c r] H Hlen; simpl in *; try done.
  - by apply elem_of_nil in H.
  - case_bool_decide; [done|].
    apply elem_of_cons in H as [->|H]; [done|]. apply IH; [done|lia].
Qed.

Lemma under_self_in lab labels x : x ∈ under lab labels labels → lab ∈ labels.
Proof.
  intros H. destruct (decide (lab ∈ labels)) as [|Hn]; [done|].
  rewrite under_absent in H by done. by apply elem_of_nil in H.
Qed.

Lemma under_NoDup lab labels :
  NoDup labels → lab ∈ labels → under lab labels labels = [lab].
Proof.
  unfold under. induction 1 as [|l labels Hl Hnd IH]; simpl.
  - by intros ?%elem_of_nil.
  - intros Hin. case_bool_decide as E.
    + subst l. f_equal. by apply (under_absent lab labels labels).
    + apply elem_of_cons in Hin as [->|Hin]; [done|]. auto.
Qed.

Lemma under_zip_with (f : cell → cell → cell) lab labels r :
  under lab labels (zip_with f labels r) = f lab <$> under lab labels r.
Proof.
  unfold under. revert r. induction labels as [|l labels IH];
    intros [|c r]; simpl; try done.
  case_bool_decide; simpl; rewrite IH; [by subst|done].
Qed.

Lemma under_snoc lab labels r x v :
  length r = length labels →
  under lab (labels ++ [x]) (r ++ [v])
  = under lab labels r ++ (if bool_decide (x = lab) then [v] else []).
Proof.
  unfold under. revert r. induction labels as [|l labels IH];
    intros [|c r] H; simpl in H; try done.
  rewrite <- !app_comm_cons, !fmap_cons. cbn [mask_filter].
  rewrite IH by lia. by destruct (bool_decide (l = lab)).
Qed.

Lemma NoDup_esperadas : NoDup colunas_esperadas.
Proof. compute_done. Qed.

Lemma campo_absent lab labels r : lab ∉ labels → campo lab labels r = NaN.
Proof. intros H. unfold campo. by rewrite under_absent. Qed.

Lemma campo_fmap_esperadas (f : cell → cell) lab :
  lab ∈ colunas_esperadas →
  campo lab colunas_esperadas (f <$> colunas_esperadas) = f lab.
Proof.
  intros H. unfold campo.
  by rewrite under_fmap, under_NoDup by (done || apply NoDup_esperadas).
Qed.

Lemma getitem_esperadas lab df :
  columns df = colunas_esperadas → lab ∈ colunas_esperadas →
  getitem lab df = OneColumn (serie_de lab df).
Proof.
  intros Hc Hin. unfold getitem, serie_de. rewrite Hc.
  by rewrite under_NoDup by (done || apply NoDup_esperadas).
Qed.

Lemma getitem_esperadas_absent lab df :
  columns df = colunas_esperadas → lab ∉ colunas_esperadas →
  getitem lab df = NoColumn.
Proof. intros Hc Hin. unfold getitem. rewrite Hc. by rewrite under_absent. Qed.

End frame_facts.

Section pipeline.
Implicit Types (lab : cell) (labels r : list cell) (df : DataFrame).

Lemma serie_length lab df : length (serie_de lab df) = length (rows df).
Proof. apply length_fmap. Qed.

Lemma range_from_length a n : length (range_from a n) = n.
Proof. unfold range_from. by rewrite length_fmap, length_seq. Qed.

(** *** [setitem] *)

Lemma setitem_rows_length lab vals df :
  length vals = length (rows df) →
  length (rows (setitem lab vals df)) = length (rows df).
Proof.
  intros H. unfold setitem. case_bool_decide; simpl;
    rewrite length_zip_with; lia.
Qed.

Lemma setitem_columns_in lab vals df :
  lab ∈ columns df → columns (setitem lab vals df) = columns df.
Proof. intros H. unfold setitem. by rewrite bool_decide_eq_true_2. Qed.

Lemma setitem_well_shaped lab vals df :
  well_shaped df → well_shaped (setitem lab vals df).
Proof.
  unfold well_shaped, setitem. intros H. case_bool_decide; simpl.
  - apply Forall_forall. intros r (v & r0 & -> & _ & Hr)%elem_of_zip_with.
    rewrite Forall_forall in H. rewrite length_zip_with, (H r0 Hr). lia.
  - apply Forall_forall. intros r (v & r0 & -> & _ & Hr)%elem_of_zip_with.
    rewrite Forall_forall in H. rewrite !length_app, (H r0 Hr). done.
Qed.

Lemma setitem_serie lab vals df :
  well_shaped df → length vals = length (rows df) →
  serie_de lab (setitem lab vals df) = vals.
Proof.
  unfold well_shaped, serie_de, setitem. intros Hws.
  case_bool_decide as Hin; simpl.
  - revert vals. induction Hws as [|r rs Hr _ IH]; intros [|v vals] Hlen;
      simpl in *; try done.
    f_equal; [|apply IH; lia].
    unfold campo. rewrite under_zip_with.
    pose proof (under_present lab (columns df) r Hin Hr) as Hne.
    destruct (under lab (columns df) r); [done|]. simpl.
    by rewrite bool_decide_eq_true_2.
  - revert vals. induction Hws as [|r rs Hr _ IH]; intros [|v vals] Hlen;
      simpl in *; try done.
    f_equal; [|apply IH; lia].
    unfold campo. rewrite under_snoc by done.
    rewrite under_absent by done. simpl. by rewrite bool_decide_eq_true_2.
Qed.

Lemma setitem_serie_ne lab lab' vals df :
  lab' ≠ lab → well_shaped df → length vals = length (rows df) →
  serie_de lab' (setitem lab vals df) = serie_de lab' df.
Proof.
  unfold well_shaped, serie_de, setitem. intros Hne Hws.
  case_bool_decide as Hin; simpl.
  - revert vals. induction Hws as [|r rs Hr _ IH]; intros [|v vals] Hlen;
      simpl in *; try done.
    f_equal; [|apply IH; lia].
    unfold campo. rewrite under_zip_with.
    rewrite bool_decide_eq_false_2 by done.
    by rewrite list_fmap_id.
  - revert vals. induction Hws as [|r rs Hr _ IH]; intros [|v vals] Hlen;
      simpl in *; try done.
    f_equal; [|apply IH; lia].
    unfold campo. rewrite under_snoc by done.
    rewrite bool_decide_eq_false_2 by done. by rewrite app_nil_r.
Qed.

(** *** [boolean_index] and the selection loop *)

Lemma boolean_index_well_shaped mask df :
  well_shaped df → well_shaped (boolean_index mask df).
Proof.
  unfold well_shaped. simpl. rewrite !Forall_forall.
  intros H r Hr%mask_filter_elem. auto.
Qed.

Lemma boolean_index_serie (p : cell → bool) lab df :
  boolean_index (p <$> serie_de lab df) df
  = {| columns := columns df;
       rows := filter (fun r => p (campo lab (columns df) r)) (rows df) |}.
Proof.
  unfold boolean_index, serie_de. f_equal.
  rewrite <- list_fmap_compose. apply (mask_filter_self (p ∘ campo lab (columns df))).
Qed.
End pipeline.
Section load_facts.
Implicit Types (lab : cell) (labels r : list cell) (df : DataFrame).

Lemma not_unnamed_length labels mask :
  not_unnamed labels = Some mask → length mask = length labels.
Proof.
  revert mask. induction labels as [|l labels IH]; intros mask; simpl.
  - by intros [= <-].
  - destruct l; try done. destruct (not_unnamed labels); [|done].
    intros [= <-]. simpl. f_equal. by apply IH.
Qed.

Lemma header_labels_length i seen line :
  length (header_labels i seen line) = length line.
Proof.
  revert i seen. induction line as [|c line IH]; intros i seen; simpl;
    [done|]. by rewrite IH.
Qed.

Lemma read_excel_header_well_shaped arquivo h :
  well_shaped (read_excel_header arquivo h).
Proof.
  unfold well_shaped, read_excel_header. simpl.
  apply Forall_fmap, Forall_true. intros r. simpl.
  by rewrite length_resize, header_labels_length.
Qed.

Lemma loc_columns_well_shaped mask df :
  well_shaped df → well_shaped (loc_columns mask df).
Proof.
  unfold well_shaped, loc_columns. simpl. intros H.
  apply Forall_fmap. eapply Forall_impl; [exact H|].
  intros r Hr. simpl. by apply mask_filter_length.
Qed.

Lemma strip_columns_well_shaped df :
  well_shaped df → well_shaped (strip_columns df).
Proof.
  unfold well_shaped, strip_columns. simpl. intros H.
  eapply Forall_impl; [exact H|]. intros r Hr. simpl.
  by rewrite length_fmap.
Qed.

Lemma bind_under_length (names : list cell) labels r :
  length r = length labels →
  length (names ≫= fun n => under n labels r)
  = length (names ≫= fun n => under n labels labels).
Proof.
  intros H. induction names as [|n names IH]; [done|].
  rewrite !bind_cons, !length_app, IH. f_equal. by apply under_length.
Qed.

Lemma getitem_list_well_shaped names df :
  well_shaped df → well_shaped (getitem_list names df).
Proof.
  unfold well_shaped, getitem_list. simpl. intros H.
  apply Forall_fmap. eapply Forall_impl; [exact H|].
  intros r Hr. simpl. by apply bind_under_length.
Qed.

Lemma dropna_all_well_shaped df : well_shaped df → well_shaped (dropna_all df).
Proof.
  unfold well_shaped, dropna_all. simpl. rewrite !Forall_forall.
  intros H r [_ Hr]%list_elem_of_filter. auto.
Qed.

Lemma astype_str_well_shaped df : well_shaped df → well_shaped (astype_str df).
Proof.
  unfold well_shaped, astype_str. simpl. intros H.
  apply Forall_fmap. eapply Forall_impl; [exact H|].
  intros r Hr. simpl in *. rewrite length_zip_with. lia.
Qed.

Lemma getitem_list_columns names df lab :
  lab ∈ columns (getitem_list names df) ↔ lab ∈ names ∧ lab ∈ columns df.
Proof.
  unfold getitem_list. simpl. rewrite list_elem_of_bind. split.
  - intros (n & Hlab & Hn). pose proof (under_self_eq _ _ _ Hlab) as ->.
    split; [done|]. by eapply under_self_in.
  - intros [Hn Hin]. exists lab. split; [|done].
    pose proof (under_present lab (columns df) (columns df) Hin eq_refl) as Hne.
    destruct (under lab (columns df) (columns df)) as [|x l] eqn:E; [done|].
    assert (x = lab) as ->.
    { apply (under_self_eq lab (columns df)). rewrite E. by left. }
    by left.
Qed.

Lemma astype_str_serie_text lab df :
  lab ≠ Quantidade → lab ∈ columns df → well_shaped df →
  Forall is_text (serie_de lab (astype_str df)).
Proof.
  unfold well_shaped, serie_de, astype_str. simpl. intros Hne Hin Hws.
  rewrite <- list_fmap_compose. apply Forall_fmap.
  eapply Forall_impl; [exact Hws|]. intros r Hr. simpl.
  unfold campo. rewrite under_zip_with.
  pose proof (under_present lab (columns df) r Hin Hr) as Hnil.
  destruct (under lab (columns df) r) as [|c l]; [done|]. simpl.
  rewrite bool_decide_eq_false_2 by done. by eexists.
Qed.

Lemma serie_absent lab df :
  lab ∉ columns df → serie_de lab df = replicate (length (rows df)) NaN.
Proof.
  intros H. unfold serie_de. induction (rows df) as [|r rs IH]; [done|].
  rewrite fmap_cons, IH, campo_absent by done. done.
Qed.

Lemma numerada_well_shaped df2 : well_shaped df2 → well_shaped (numerada df2).
Proof.
  intros H. unfold numerada.
  by apply setitem_well_shaped, astype_str_well_shaped,
    dropna_all_well_shaped, getitem_list_well_shaped.
Qed.

Lemma numerada_quantidade df2 :
  well_shaped df2 →
  serie_de Quantidade (numerada df2)
  = range_from 1 (length (rows (numerada df2))).
Proof.
  intros H. unfold numerada.
  rewrite setitem_rows_length by apply range_from_length.
  apply setitem_serie; [|apply range_from_length].
  by apply astype_str_well_shaped, dropna_all_well_shaped,
    getitem_list_well_shaped.
Qed.

Lemma numerada_text lab df2 :
  well_shaped df2 → lab ∈ colunas_esperadas → lab ≠ Quantidade →
  lab ∈ columns df2 → Forall is_text (serie_de lab (numerada df2)).
Proof.
  intros H HE Hne Hin. unfold numerada.
  rewrite setitem_serie_ne; [|done| |apply range_from_length].
  - apply astype_str_serie_text; [done| |].
    + unfold dropna_all. cbn [columns].
      apply getitem_list_columns. split; [|done].
      by apply list_elem_of_filter.
    + by apply dropna_all_well_shaped, getitem_list_well_shaped.
  - by apply astype_str_well_shaped, dropna_all_well_shaped,
      getitem_list_well_shaped.
Qed.

Lemma numerada_missing lab df2 :
  well_shaped df2 → lab ≠ Quantidade → lab ∉ columns df2 →
  serie_de lab (numerada df2)
  = replicate (length (rows (numerada df2))) NaN.
Proof.
  intros H Hne Hin. unfold numerada.
  rewrite setitem_rows_length by apply range_from_length.
  rewrite setitem_serie_ne; [|done| |apply range_from_length].
  - apply serie_absent. unfold astype_str, dropna_all. cbn [columns].
    rewrite (getitem_list_columns _ df2 lab). tauto.
  - by apply astype_str_well_shaped, dropna_all_well_shaped,
      getitem_list_well_shaped.
Qed.
End load_facts.
Section load_result.
Implicit Types (lab : cell) (labels r : list cell) (df : DataFrame).

Lemma validar_esperadas rs :
  validar_colunas {| columns := colunas_esperadas; rows := rs |}
  = (true, MsgTodasPresentes).
Proof. reflexivity. Qed.

(** The frame [reindex] builds from [df6]. *)
Lemma processar_inv arquivo T ok m :
  processar arquivo = (Some T, (ok, m)) → ok = true →
  ∃ h mask,
    find_header arquivo = Some h
    ∧ not_unnamed (columns (read_excel_header arquivo h)) = Some mask
    ∧ let df6 := numerada (strip_columns
                             (loc_columns mask (read_excel_header arquivo h))) in
      NoDup (columns df6) ∧ m = MsgSucesso
      ∧ T = {| columns := colunas_esperadas;
               rows := (fun r => (fun lab => campo lab (columns df6) r)
                                   <$> colunas_esperadas) <$> rows df6 |}.
Proof.
  unfold processar. destruct (find_header arquivo) as [h|]; [|done].
  destruct (not_unnamed _) as [mask|] eqn:Hm; [|by intros [= _ <-]].
  fold (numerada (strip_columns (loc_columns mask (read_excel_header arquivo h)))).
  set (df6 := numerada _). unfold reindex_columns.
  case_bool_decide as Hnd; [|by intros [= _ <-]].
  rewrite validar_esperadas. intros [= <- <- <-] _.
  exists h, mask. by repeat split.
Qed.

Lemma processar_sucesso arquivo h mask :
  find_header arquivo = Some h →
  not_unnamed (columns (read_excel_header arquivo h)) = Some mask →
  let df6 := numerada (strip_columns
                         (loc_columns mask (read_excel_header arquivo h))) in
  NoDup (columns df6) →
  processar arquivo
  = (Some {| columns := colunas_esperadas;
             rows := (fun r => (fun lab => campo lab (columns df6) r)
                                 <$> colunas_esperadas) <$> rows df6 |},
     (true, MsgSucesso)).
Proof.
  intros Hh Hm df6 Hnd. unfold processar. rewrite Hh, Hm.
  fold (numerada (strip_columns (loc_columns mask (read_excel_header arquivo h)))).
  fold df6. unfold reindex_columns.
  rewrite bool_decide_eq_true_2 by done. by rewrite validar_esperadas.
Qed.

Lemma held_alloc d h :
  (let (h', l) := alloc d h in h' !! l) = Some d.
Proof. unfold alloc. apply lookup_insert_eq. Qed.

Lemma loads_processar arquivo T :
  loads arquivo T ↔ processar arquivo = (Some T, (true, MsgSucesso)).
Proof.
  unfold loads, processar_arquivo. split.
  - intros (self & self' & m & Hp & Hheld).
    destruct (processar arquivo) as [[d|] [ok m']] eqn:E.
    + unfold alloc in Hp. injection Hp as <- -> ->.
      unfold held in Hheld. simpl in Hheld.
      rewrite lookup_insert_eq in Hheld. injection Hheld as ->.
      by destruct (processar_inv _ _ _ _ E eq_refl) as (? & ? & ? & ? & ? & -> & ?).
    + injection Hp as <- -> ->. unfold processar in E.
      destruct (find_header arquivo); [|done].
      destruct (not_unnamed _); [|done].
      destruct (reindex_columns _ _); [|done].
      by destruct (validar_colunas _) as [[] ?].
  - intros E. exists init. rewrite E. unfold alloc.
    eexists _, _. split; [done|]. unfold held. simpl.
    by rewrite lookup_insert_eq.
Qed.

Lemma reindex_serie lab df6 :
  lab ∈ colunas_esperadas →
  serie_de lab {| columns := colunas_esperadas;
                  rows := (fun r => (fun lab => campo lab (columns df6) r)
                                      <$> colunas_esperadas) <$> rows df6 |}
  = serie_de lab df6.
Proof.
  intros H. unfold serie_de. simpl. rewrite <- list_fmap_compose.
  apply list_fmap_ext. intros _ r _. simpl.
  by rewrite (campo_fmap_esperadas (fun lab => campo lab (columns df6) r)).
Qed.

Lemma source_columns_eq arquivo h mask :
  find_header arquivo = Some h →
  not_unnamed (columns (read_excel_header arquivo h)) = Some mask →
  source_columns arquivo
  = columns (strip_columns (loc_columns mask (read_excel_header arquivo h))).
Proof. intros Hh Hm. unfold source_columns. by rewrite Hh, Hm. Qed.

Lemma df2_well_shaped arquivo h mask :
  well_shaped (strip_columns (loc_columns mask (read_excel_header arquivo h))).
Proof.
  apply strip_columns_well_shaped, loc_columns_well_shaped,
    read_excel_header_well_shaped.
Qed.

Lemma loaded_columns arquivo T : loads arquivo T → columns T = colunas_esperadas.
Proof.
  intros E%loads_processar.
  by destruct (processar_inv _ _ _ _ E eq_refl) as (? & ? & ? & ? & ? & ? & ->).
Qed.

Lemma loaded_well_shaped arquivo T : loads arquivo T → well_shaped T.
Proof.
  intros E%loads_processar.
  destruct (processar_inv _ _ _ _ E eq_refl) as (? & ? & ? & ? & ? & ? & ->).
  unfold well_shaped. cbn [rows columns]. apply Forall_fmap, Forall_true.
  intros r. unfold compose. by rewrite length_fmap.
Qed.

Lemma loaded_quantidade arquivo T :
  loads arquivo T →
  serie_de Quantidade T = range_from 1 (length (rows T)).
Proof.
  intros E%loads_processar.
  destruct (processar_inv _ _ _ _ E eq_refl) as (h & mask & ? & ? & ? & ? & ->).
  rewrite reindex_serie by compute_done. cbn [rows]. rewrite length_fmap.
  apply numerada_quantidade, df2_well_shaped.
Qed.

Lemma loaded_text arquivo T lab :
  loads arquivo T → lab ∈ colunas_esperadas → lab ≠ Quantidade →
  lab ∈ source_columns arquivo → Forall is_text (serie_de lab T).
Proof.
  intros E%loads_processar HE Hne Hin.
  destruct (processar_inv _ _ _ _ E eq_refl) as (h & mask & Hh & Hm & ? & ? & ->).
  rewrite reindex_serie by done. rewrite (source_columns_eq _ _ _ Hh Hm) in Hin.
  apply numerada_text; [apply df2_well_shaped|done..].
Qed.

Lemma loaded_missing arquivo T lab :
  loads arquivo T → lab ∈ colunas_esperadas → lab ≠ Quantidade →
  lab ∉ source_columns arquivo →
  serie_de lab T = replicate (length (rows T)) NaN.
Proof.
  intros E%loads_processar HE Hne Hin.
  destruct (processar_inv _ _ _ _ E eq_refl) as (h & mask & Hh & Hm & ? & ? & ->).
  rewrite reindex_serie by done. rewrite (source_columns_eq _ _ _ Hh Hm) in Hin.
  cbn [rows]. rewrite length_fmap.
  apply numerada_missing; [apply df2_well_shaped|done..].
Qed.
End load_result.
Section store_facts.
Implicit Types (h : gmap nat DataFrame) (d : DataFrame) (l : nat).

Lemma alloc_spec d h : ∃ l, alloc d h = (<[l:=d]> h, l) ∧ h !! l = None.
Proof.
  exists (fresh (dom h)). split; [done|]. apply not_elem_of_dom, is_fresh.
Qed.

Lemma aplicar_filtros_spec h0 filtros : ∀ l h d,
  h !! l = Some d → h0 ⊆ h → h0 !! l = None →
  ∃ h', h ⊆ h' ∧
    match selecionar filtros d with
    | Returned d' =>
        ∃ l', aplicar_filtros filtros l h = (h', Returned l')
              ∧ h' !! l' = Some d' ∧ h0 !! l' = None
    | Raised e => aplicar_filtros filtros l h = (h', Raised e)
    end.
Proof.
  induction filtros as [|[coluna valor] rest IH]; intros l h d Hl Hsub Hfresh.
  - exists h. split; [done|]. simpl. by exists l.
  - simpl. destruct valor as [|v valor]; [by apply IH|].
    rewrite (lookup_total_correct h l d Hl).
    destruct (getitem (Str coluna) d) as [|serie|].
    + by exists h.
    + assert (h !! fresh (dom h) = None) as Hl2
        by apply not_elem_of_dom, is_fresh.
      match goal with
      | |- context [selecionar rest ?x] =>
          destruct (IH (fresh (dom h)) (<[fresh (dom h):=x]> h) x)
            as (h' & Hh' & Hres)
      end.
      * apply lookup_insert_eq.
      * etrans; [exact Hsub|]. by apply insert_subseteq.
      * by eapply lookup_weaken_None.
      * exists h'. split; [|done].
        etrans; [|exact Hh']. by apply insert_subseteq.
    + by exists h.
Qed.

(** [filtrar_dados] on a processor that holds a frame: it returns a new
    object holding [filtrado], and every object that was there is as it
    was. *)
Lemma filtrar_dados_spec filtros self d :
  held self = Some d →
  ∃ self' l,
    filtrar_dados filtros self = (self', Returned l)
    ∧ heap self' !! l = Some (filtrado filtros d)
    ∧ self_df self' = self_df self
    ∧ heap self ⊆ heap self'
    ∧ heap self !! l = None.
Proof.
  intros Hheld. unfold filtrar_dados, filtrar_try, filtrado. rewrite Hheld.
  destruct (alloc_spec d (heap self)) as (l1 & -> & Hl1).
  destruct (aplicar_filtros_spec (heap self) filtros l1 (<[l1:=d]> (heap self)) d)
    as (h' & Hh' & Hres).
  { apply lookup_insert_eq. }
  { by apply insert_subseteq. }
  { done. }
  assert (heap self ⊆ h') as Hsub.
  { etrans; [|exact Hh']. by apply insert_subseteq. }
  destruct (selecionar filtros d) as [d'|e].
  - destruct Hres as (l' & -> & Hl' & Hfresh).
    rewrite (lookup_total_correct h' l' d' Hl').
    eexists _, _. split; [done|]. simpl.
    rewrite lookup_insert_eq. repeat split; [|done].
    by apply insert_subseteq_r.
  - rewrite Hres.
    unfold held in Hheld. destruct (self_df self) as [l0|] eqn:E0; [|done].
    simpl in Hheld. cbn [mbind option_bind].
    rewrite (lookup_weaken _ _ _ _ Hheld Hsub).
    destruct (alloc_spec d h') as (l3 & -> & Hl3).
    eexists _, _. split; [done|]. simpl.
    rewrite lookup_insert_eq. repeat split.
    + etrans; [exact Hsub|]. by apply insert_subseteq.
    + by eapply lookup_weaken_None.
Qed.

Lemma filtrar_dados_sem_tabela filtros self :
  held self = None → filtrar_dados filtros self = (self, Raised AttributeError).
Proof.
  intros Hheld. unfold filtrar_dados, filtrar_try. rewrite Hheld.
  unfold held in Hheld. rewrite Hheld. by destruct self.
Qed.

Lemma Filter_value filtros self d :
  held self = Some d → Filter filtros self = Returned (filtrado filtros d).
Proof.
  intros Hheld. unfold Filter.
  destruct (filtrar_dados_spec filtros self d Hheld)
    as (self' & l & -> & Hl & _).
  by rewrite (lookup_total_correct _ _ _ Hl).
Qed.
End store_facts.
Section filter_facts.
Implicit Types (lab : cell) (labels r : list cell) (d : DataFrame).

Lemma filter_all {A} (P : A → Prop) `{!∀ x, Decision (P x)} (l : list A) :
  Forall P l → filter P l = l.
Proof.
  induction 1 as [|x l Hx _ IH]; [done|].
  by rewrite filter_cons_True, IH.
Qed.

Lemma getitem_one lab d serie :
  getitem lab d = OneColumn serie → serie = serie_de lab d.
Proof.
  unfold getitem, serie_de.
  destruct (under lab (columns d) (columns d)) as [|? [|? ?]]; congruence.
Qed.

Lemma getitem_kind lab d1 d2 :
  columns d1 = columns d2 →
  match getitem lab d1 with
  | NoColumn => getitem lab d2 = NoColumn
  | OneColumn _ => ∃ s, getitem lab d2 = OneColumn s
  | ManyColumns => getitem lab d2 = ManyColumns
  end.
Proof.
  intros H. unfold getitem. rewrite H.
  destruct (under lab (columns d2) (columns d2)) as [|? [|? ?]]; eauto.
Qed.

Lemma selecionar_returned filtros : ∀ d d',
  selecionar filtros d = Returned d' →
  d' = {| columns := columns d;
          rows := filter (fun r => aceita filtros (columns d) r) (rows d) |}.
Proof.
  induction filtros as [|[coluna valor] rest IH]; intros d d'.
  - simpl. intros [= <-]. destruct d as [cs rs]. simpl. f_equal.
    symmetry. apply filter_all, Forall_true. by intros.
  - cbn [selecionar aceita]. destruct valor as [|v valor]; [by apply IH|].
    destruct (getitem (Str coluna) d) as [|serie|] eqn:E; [done| |done].
    apply getitem_one in E as ->. rewrite boolean_index_serie.
    intros ->%IH. cbn [columns rows]. f_equal.
    rewrite list_filter_filter. apply list_filter_iff. intros r.
    rewrite andb_True. tauto.
Qed.

Lemma selecionar_kind filtros : ∀ d1 d2 d1',
  columns d1 = columns d2 → selecionar filtros d1 = Returned d1' →
  ∃ d2', selecionar filtros d2 = Returned d2'.
Proof.
  induction filtros as [|[coluna valor] rest IH]; intros d1 d2 d1' Hc.
  - simpl. eauto.
  - cbn [selecionar]. destruct valor as [|v valor]; [by apply IH|].
    pose proof (getitem_kind (Str coluna) d1 d2 Hc) as Hk.
    destruct (getitem (Str coluna) d1) as [|serie|]; [done| |done].
    destruct Hk as [s ->]. by apply IH.
Qed.

Lemma selecionar_columns filtros d d' :
  selecionar filtros d = Returned d' → columns d' = columns d.
Proof. by intros ->%selecionar_returned. Qed.

Lemma selecionar_well_shaped filtros d d' :
  well_shaped d → selecionar filtros d = Returned d' → well_shaped d'.
Proof.
  intros Hws ->%selecionar_returned. unfold well_shaped in *. simpl.
  rewrite !Forall_forall in *. intros r [_ Hr]%list_elem_of_filter. auto.
Qed.

Lemma filtrado_columns filtros T :
  columns T = colunas_esperadas →
  columns (filtrado filtros T) = colunas_esperadas.
Proof.
  intros Hc. unfold filtrado.
  destruct (selecionar filtros T) as [d2|] eqn:E; [|done].
  apply selecionar_columns in E. rewrite setitem_columns_in; [congruence|].
  rewrite E, Hc. compute_done.
Qed.

Lemma filtrado_well_shaped filtros T :
  well_shaped T → well_shaped (filtrado filtros T).
Proof.
  intros Hws. unfold filtrado.
  destruct (selecionar filtros T) as [d2|] eqn:E; [|done].
  by eapply setitem_well_shaped, selecionar_well_shaped.
Qed.

Lemma filtrado_quantidade filtros T :
  well_shaped T →
  serie_de Quantidade T = range_from 1 (length (rows T)) →
  serie_de Quantidade (filtrado filtros T)
  = range_from 1 (length (rows (filtrado filtros T))).
Proof.
  intros Hws HQ. unfold filtrado.
  destruct (selecionar filtros T) as [d2|] eqn:E; [|done].
  rewrite setitem_rows_length by apply range_from_length.
  apply setitem_serie; [|apply range_from_length].
  by eapply selecionar_well_shaped.
Qed.

(** A restriction that matches no row leaves no row. *)
Lemma filtrado_rows filtros T d2 :
  selecionar filtros T = Returned d2 →
  length (rows (filtrado filtros T))
  = length (filter (fun r => aceita filtros (columns T) r) (rows T)).
Proof.
  intros E. unfold filtrado. rewrite E.
  rewrite setitem_rows_length by apply range_from_length.
  by apply selecionar_returned in E as ->.
Qed.
End filter_facts.
Section idempotence.
Implicit Types (lab : cell) (labels r : list cell) (d : DataFrame).

Lemma zip_with_idem {A B} (f : A → B → B) (l : list A) (k : list B) :
  (∀ a b, f a (f a b) = f a b) →
  zip_with f l (zip_with f l k) = zip_with f l k.
Proof.
  intros Hf. revert k. induction l as [|a l IH]; intros [|b k]; simpl;
    try done. by rewrite Hf, IH.
Qed.

Lemma setitem_idem lab vals d :
  lab ∈ columns d →
  setitem lab vals (setitem lab vals d) = setitem lab vals d.
Proof.
  intros Hin. unfold setitem.
  rewrite (bool_decide_eq_true_2 (lab ∈ columns d)) by done.
  cbn [columns rows]. rewrite bool_decide_eq_true_2 by done. f_equal.
  apply zip_with_idem. intros v r. apply zip_with_idem.
  intros l c. by case_bool_decide.
Qed.

Lemma isin_not_text valores c : ¬ is_text c → isin valores c = false.
Proof. destruct c; try done. intros []. by eexists. Qed.

(** Writing a number into the Quantidade cell of a row whose Quantidade
    cell is not text changes no restriction's verdict. *)
Lemma aceita_numbered filtros labels r v :
  ¬ is_text v → ¬ is_text (campo Quantidade labels r) →
  aceita filtros labels
    (zip_with (fun l c => if bool_decide (l = Quantidade) then v else c)
              labels r)
  = aceita filtros labels r.
Proof.
  intros Hv Hq. induction filtros as [|[coluna valor] rest IH]; [done|].
  cbn [aceita]. destruct valor as [|x valor]; [done|]. rewrite IH. f_equal.
  unfold campo in *. rewrite under_zip_with.
  destruct (decide (Str coluna = Quantidade)) as [->|Hne].
  - rewrite bool_decide_eq_true_2 by done.
    destruct (under Quantidade labels r) as [|c l]; [done|]. simpl in *.
    by rewrite !isin_not_text.
  - rewrite bool_decide_eq_false_2 by done. by rewrite list_fmap_id.
Qed.

Lemma filtrado_idem filtros T :
  columns T = colunas_esperadas → well_shaped T →
  Forall (fun c => ¬ is_text c) (serie_de Quantidade T) →
  filtrado filtros (filtrado filtros T) = filtrado filtros T.
Proof.
  intros Hc Hws HQ. unfold filtrado at 2 3.
  destruct (selecionar filtros T) as [d2|e] eqn:E;
    [|by unfold filtrado; rewrite E].
  pose proof (selecionar_returned _ _ _ E) as Hd2.
  assert (Quantidade ∈ columns d2) as Hin.
  { rewrite Hd2. cbn [columns]. rewrite Hc. compute_done. }
  set (F := setitem Quantidade (range_from 1 (length (rows d2))) d2).
  assert (columns F = columns T) as HcF.
  { unfold F. rewrite setitem_columns_in by done. by rewrite Hd2. }
  destruct (selecionar_kind filtros T F d2 (eq_sym HcF) E) as [F2 EF].
  pose proof (selecionar_returned _ _ _ EF) as HF2.
  assert (filter (fun r => aceita filtros (columns F) r) (rows F) = rows F)
    as Hall.
  { apply filter_all, Forall_forall. intros r' Hr'.
    unfold F, setitem in Hr' |- *. rewrite bool_decide_eq_true_2 in * by done.
    cbn [rows columns] in *.
    apply elem_of_zip_with in Hr' as (v & r & -> & Hv & Hr).
    rewrite Hd2 in Hr |- *. cbn [rows columns] in *.
    apply list_elem_of_filter in Hr as [Hacc Hr].
    rewrite aceita_numbered; [done| |].
    - unfold range_from in Hv.
      apply list_elem_of_fmap in Hv as (i & -> & _). by intros [s ?].
    - rewrite Forall_forall in HQ. apply HQ. unfold serie_de.
      by apply list_elem_of_fmap_2. }
  rewrite Hall in HF2. assert (F2 = F) as -> by (rewrite HF2; by destruct F).
  unfold filtrado. rewrite EF. unfold F.
  rewrite setitem_rows_length by apply range_from_length.
  by apply setitem_idem.
Qed.

Lemma range_from_not_text a n : Forall (fun c => ¬ is_text c) (range_from a n).
Proof.
  unfold range_from. apply Forall_fmap, Forall_true. intros i [s Hs]. done.
Qed.
End idempotence.
Section header_facts.
Implicit Types (row : list cell) (arquivo : sheet).

Lemma has_item_spec row : has_item row ↔ ∃ c, c ∈ row ∧ item_cell c.
Proof.
  unfold has_item, row_values, item_cell.
  rewrite bool_decide_spec, list_elem_of_fmap. split.
  - intros (c & Hc & [Hn Hin]%list_elem_of_filter). exists c.
    split; [done|]. split; [by destruct c|].
    by rewrite PyStrFacts.lower_strip.
  - intros (c & Hin & Hn & Hc). exists c.
    rewrite <- PyStrFacts.lower_strip. split; [done|].
    apply list_elem_of_filter. split; [by destruct c|done].
Qed.

Lemma find_header_from_Some idx arquivo h :
  find_header_from idx arquivo = Some h ↔
  ∃ i, h = idx + i
       ∧ (∃ row, arquivo !! i = Some row ∧ has_item row)
       ∧ ∀ j row, j < i → arquivo !! j = Some row → ¬ has_item row.
Proof.
  revert idx. induction arquivo as [|row rest IH]; intros idx; simpl.
  - split; [done|]. by intros (i & _ & (? & ? & _) & _).
  - destruct (has_item row) eqn:E.
    + split.
      * intros [= <-]. exists 0. split; [lia|]. split.
        -- exists row. split; [done|by apply Is_true_true_2].
        -- intros; lia.
      * intros (i & -> & _ & Hfirst). destruct i as [|i]; [f_equal; lia|].
        destruct (Hfirst 0 row); [lia|done|by apply Is_true_true_2].
    + rewrite IH. split.
      * intros (i & -> & Hrow & Hfirst). exists (S i). split; [lia|].
        split; [done|]. intros [|j] row' Hj; simpl.
        -- intros [= <-]. by apply Is_true_false_2.
        -- apply Hfirst. lia.
      * intros (i & -> & (row' & Hrow & Hitem) & Hfirst).
        destruct i as [|i].
        { simpl in Hrow. injection Hrow as <-. by apply Is_true_false_2 in E. }
        exists i. split; [lia|]. split; [by exists row'|].
        intros j row'' Hj Hl. apply (Hfirst (S j)); [lia|done].
Qed.

Lemma find_header_Some arquivo h :
  find_header arquivo = Some h ↔
  (∃ row, arquivo !! h = Some row ∧ has_item row)
  ∧ ∀ j row, j < h → arquivo !! j = Some row → ¬ has_item row.
Proof.
  unfold find_header. rewrite find_header_from_Some. split.
  - by intros (i & -> & ?).
  - intros ?. by exists h.
Qed.

Lemma find_header_from_None idx arquivo :
  find_header_from idx arquivo = None ↔ Forall (fun row => ¬ has_item row) arquivo.
Proof.
  revert idx. induction arquivo as [|row rest IH]; intros idx; simpl.
  - split; [by constructor|done].
  - rewrite Forall_cons. destruct (has_item row) eqn:E.
    + split; [done|]. intros [Hn _]. destruct Hn. by apply Is_true_true_2.
    + rewrite IH. split; [|tauto]. intros ?. split; [|done].
      by apply Is_true_false_2.
Qed.

Lemma find_header_drop arquivo h :
  find_header arquivo = Some h → find_header (drop h arquivo) = Some 0.
Proof.
  rewrite !find_header_Some. intros [(row & Hrow & Hitem) _]. split.
  - exists row. by rewrite lookup_drop, Nat.add_0_r.
  - intros; lia.
Qed.

Lemma read_excel_header_drop arquivo h :
  read_excel_header (drop h arquivo) 0 = read_excel_header arquivo h.
Proof.
  unfold read_excel_header.
  by rewrite lookup_drop, Nat.add_0_r, drop_drop, Nat.add_1_r.
Qed.

Lemma processar_drop arquivo h :
  find_header arquivo = Some h → processar (drop h arquivo) = processar arquivo.
Proof.
  intros Hh. unfold processar.
  by rewrite (find_header_drop _ _ Hh), Hh, read_excel_header_drop.
Qed.
End header_facts.

Section validity.
Implicit Types (lab : cell) (labels r : list cell) (df : DataFrame).

Lemma under_self_filter lab labels :
  under lab labels labels = filter (fun l => l = lab) labels.
Proof.
  unfold under. induction labels as [|l labels IH]; [done|].
  rewrite fmap_cons, filter_cons. cbn [mask_filter]. rewrite IH.
  by case_bool_decide; case_decide.
Qed.

Lemma NoDup_bind_under (names : list cell) labels :
  NoDup names → (∀ n, n ∈ names → NoDup (under n labels labels)) →
  NoDup (names ≫= fun n => under n labels labels).
Proof.
  induction 1 as [|n names Hn Hnd IH]; intros Hall; [constructor|].
  rewrite bind_cons. apply NoDup_app. split; [|split].
  - apply Hall. by left.
  - intros x Hx (m & Hxm & Hm)%list_elem_of_bind.
    apply under_self_eq in Hx as ->. apply under_self_eq in Hxm as ->. done.
  - apply IH. intros m Hm. apply Hall. by right.
Qed.

Lemma numerada_NoDup df2 :
  NoDup (filter (fun c => c ∈ colunas_esperadas) (columns df2)) →
  NoDup (columns (numerada df2)).
Proof.
  intros Hnd. unfold numerada.
  set (df5 := astype_str _).
  assert (NoDup (columns df5)) as H5.
  { unfold df5, astype_str, dropna_all, getitem_list. cbn [columns].
    apply NoDup_bind_under.
    - apply NoDup_filter, NoDup_esperadas.
    - intros n [_ Hn]%list_elem_of_filter. rewrite under_self_filter.
      erewrite list_filter_iff.
      + rewrite <- (list_filter_filter (fun l => l = n)
                      (fun c => c ∈ colunas_esperadas)).
        by apply NoDup_filter.
      + intros x. simpl. split; [intros ->; done|tauto]. }
  unfold setitem. case_bool_decide as Hin; cbn [columns]; [done|].
  apply NoDup_app. split; [done|]. split; [|apply NoDup_singleton].
  intros x Hx ->%list_elem_of_singleton. done.
Qed.

Lemma not_unnamed_header i seen line :
  Forall (fun c => ∀ z, c ≠ Num z) line →
  is_Some (not_unnamed (header_labels i seen line)).
Proof.
  intros H. revert i seen. induction H as [|c line Hc _ IH]; intros i seen.
  - by eexists.
  - cbn [header_labels].
    destruct (IH (S i) ((match c with
                         | NaN => Str ("Unnamed: " ++ pretty i)
                         | _ => c
                         end) :: seen)) as [m Hm].
    destruct c as [|s|z]; [| |by destruct (Hc z)];
      destruct (length _); cbn [not_unnamed]; rewrite Hm; by eexists.
Qed.

Lemma header_valido_sucesso arquivo :
  header_valido arquivo →
  ∃ T, processar arquivo = (Some T, (true, MsgSucesso)).
Proof.
  intros (h & line & Hh & Hline & Htext & Hnd).
  destruct (not_unnamed_header 0 [] line Htext) as [mask Hm].
  assert (not_unnamed (columns (read_excel_header arquivo h)) = Some mask)
    as Hm'.
  { unfold read_excel_header. by rewrite Hline. }
  rewrite (source_columns_eq _ _ _ Hh Hm') in Hnd.
  eexists. apply (processar_sucesso _ _ _ Hh Hm'). by apply numerada_NoDup.
Qed.
End validity.

Section validity_converse.
Implicit Types (lab : cell) (labels r : list cell) (df : DataFrame).

Lemma NoDup_filter_esperadas labels :
  (∀ n, n ∈ colunas_esperadas → NoDup (under n labels labels)) →
  NoDup (filter (fun c => c ∈ colunas_esperadas) labels).
Proof.
  induction labels as [|x labels IH]; intros Hall; [constructor|].
  assert (∀ n, n ∈ colunas_esperadas → NoDup (under n labels labels)) as Hall'.
  { intros n Hn. specialize (Hall n Hn). rewrite under_self_filter in *.
    rewrite filter_cons in Hall. case_decide; [|done].
    by apply NoDup_cons in Hall as [_ ?]. }
  rewrite filter_cons. case_decide as Hx; [|by apply IH].
  constructor; [|by apply IH].
  intros [_ Hin]%list_elem_of_filter.
  specialize (Hall x Hx). rewrite under_self_filter, filter_cons_True in Hall
    by done.
  apply NoDup_cons in Hall as [Hall _]. apply Hall.
  by apply list_elem_of_filter.
Qed.

Lemma NoDup_bind_inv (names : list cell) labels n :
  NoDup (names ≫= fun n => under n labels labels) → n ∈ names →
  NoDup (under n labels labels).
Proof.
  induction names as [|m names IH]; [by intros _ ?%elem_of_nil|].
  rewrite bind_cons. intros (H1 & _ & H2)%NoDup_app [->|Hin]%elem_of_cons; auto.
Qed.

Lemma numerada_NoDup_inv df2 :
  NoDup (columns (numerada df2)) →
  NoDup (filter (fun c => c ∈ colunas_esperadas) (columns df2)).
Proof.
  unfold numerada. set (df5 := astype_str _). intros Hnd.
  assert (NoDup (columns df5)) as H5.
  { unfold setitem in Hnd. case_bool_decide; cbn [columns] in Hnd; [done|].
    by apply NoDup_app in Hnd as [? _]. }
  unfold df5, astype_str, dropna_all, getitem_list in H5. cbn [columns] in H5.
  apply NoDup_filter_esperadas. intros n Hn.
  destruct (decide (n ∈ columns df2)) as [Hin|Hout].
  - apply (NoDup_bind_inv _ _ _ H5). by apply list_elem_of_filter.
  - rewrite under_absent by done. constructor.
Qed.

Lemma not_unnamed_header_inv i seen line mask :
  Forall (fun c => ∀ z, c ≠ Num z) seen →
  not_unnamed (header_labels i seen line) = Some mask →
  Forall (fun c => ∀ z, c ≠ Num z) line.
Proof.
  revert i seen mask. induction line as [|c line IH]; intros i seen mask Hseen;
    [constructor|].
  cbn [header_labels]. intros H.
  assert (∀ z, c ≠ Num z) as Hc.
  { intros z ->.
    assert (filter (fun s => s = Num z) seen = []) as E.
    { clear H. induction Hseen as [|x seen Hx _ IHs]; [done|].
      rewrite filter_cons_False; [done|]. apply Hx. }
    rewrite E in H. done. }
  constructor; [done|].
  destruct (match length _ with O => _ | S _ => _ end) as [|s|z] in H;
    try done. cbn [not_unnamed] in H.
  destruct (not_unnamed _) as [m|] eqn:E in H; [|done].
  eapply IH; [|exact E]. constructor; [|done].
  destruct c; [done|done|by destruct (Hc z)].
Qed.

(** A load succeeds exactly on the workbooks with a valid header line. *)
Lemma loads_iff_header_valido arquivo :
  (∃ T, loads arquivo T) ↔ header_valido arquivo.
Proof.
  split.
  - intros [T E%loads_processar].
    destruct (processar_inv _ _ _ _ E eq_refl)
      as (h & mask & Hh & Hm & Hnd & _).
    pose proof Hh as [(line & Hline & _) _]%find_header_Some.
    exists h, line. split; [done|]. split; [done|]. split.
    + unfold read_excel_header in Hm. rewrite Hline in Hm.
      eapply not_unnamed_header_inv; [constructor|exact Hm].
    + rewrite (source_columns_eq _ _ _ Hh Hm). by apply numerada_NoDup_inv.
  - intros [T HT]%header_valido_sucesso. exists T. by apply loads_processar.
Qed.
End validity_converse.
Section unique_facts.
Implicit Types (l seen : list cell) (x : cell).

Lemma unique_from_elem seen l x :
  x ∈ unique_from seen l ↔ x ∈ l ∧ x ∉ seen.
Proof.
  revert seen. induction l as [|y l IH]; intros seen; simpl.
  - split; [by intros ?%elem_of_nil|by intros [?%elem_of_nil _]].
  - case_bool_decide as Hy.
    + rewrite IH, elem_of_cons. split; [tauto|].
      intros [[->|?] ?]; [done|tauto].
    + rewrite !elem_of_cons, IH, not_elem_of_cons. split.
      * intros [->|(? & ? & ?)]; tauto.
      * intros [[->|?] ?]; [by left|].
        destruct (decide (x = y)); [by left|right; tauto].
Qed.

Lemma unique_from_NoDup seen l : NoDup (unique_from seen l).
Proof.
  revert seen. induction l as [|y l IH]; intros seen; simpl; [constructor|].
  case_bool_decide; [done|]. constructor; [|done].
  rewrite unique_from_elem, not_elem_of_cons. tauto.
Qed.

Lemma unique_from_order seen l i j a b :
  unique_from seen l !! i = Some a → unique_from seen l !! j = Some b →
  i < j → ∃ n, l !! n = Some a ∧ b ∉ take (S n) l.
Proof.
  revert seen i j. induction l as [|y l IH]; intros seen i j; simpl; [done|].
  case_bool_decide as Hy.
  - intros Hi Hj Hlt. destruct (IH _ _ _ Hi Hj Hlt) as (n & Hn & Hb).
    exists (S n). split; [done|]. rewrite not_elem_of_cons. split; [|done].
    intros ->. apply list_elem_of_lookup_2, unique_from_elem in Hj. tauto.
  - destruct i as [|i], j as [|j]; simpl; try lia.
    + intros [= <-] Hj _. exists 0. split; [done|]. simpl.
      apply list_elem_of_lookup_2, unique_from_elem in Hj as [_ Hj].
      apply not_elem_of_cons in Hj as [Hj _].
      by intros ->%list_elem_of_singleton.
    + intros Hi Hj Hlt. destruct (IH _ _ _ Hi Hj) as (n & Hn & Hb); [lia|].
      exists (S n). split; [done|]. rewrite not_elem_of_cons. split; [|done].
      apply list_elem_of_lookup_2, unique_from_elem in Hj as [_ Hj].
      by apply not_elem_of_cons in Hj as [Hj _].
Qed.

Lemma unique_elem l x : x ∈ unique l ↔ x ∈ l.
Proof.
  unfold unique. rewrite unique_from_elem. split; [tauto|].
  intros ?. split; [done|]. apply not_elem_of_nil.
Qed.

Lemma unique_NoDup l : NoDup (unique l).
Proof. apply unique_from_NoDup. Qed.

Lemma unique_order l i j a b :
  unique l !! i = Some a → unique l !! j = Some b → i < j →
  ∃ n, l !! n = Some a ∧ b ∉ take (S n) l.
Proof. apply unique_from_order. Qed.
End unique_facts.

Section valores_facts.

Lemma valores_sorted_trimmed (valores : list cell) :
  let l := PyStr.sorted
             ((fun val => PyStr.strip (py_str val))
                <$> filter (fun val => notna val
                                       && truthy (PyStr.strip (py_str val)))
                           valores) in
  StronglySorted String.le l ∧ Forall (fun s => s ≠ "" ∧ trimmed s) l.
Proof.
  intros l. split.
  - apply StronglySorted_merge_sort; apply _.
  - unfold l, PyStr.sorted. rewrite merge_sort_Permutation.
    apply Forall_fmap, Forall_forall.
    intros val [[_ Ht]%andb_True _]%list_elem_of_filter. simpl. split.
    + intros E. by rewrite E in Ht.
    + apply PyStrFacts.strip_trimmed.
Qed.

Lemma get_valores_unicos_returns coluna self :
  ∃ l, get_valores_unicos coluna self = Returned l
       ∧ StronglySorted String.le l
       ∧ Forall (fun s => s ≠ "" ∧ trimmed s) l.
Proof.
  unfold get_valores_unicos, valores_unicos_try.
  assert (StronglySorted String.le [] ∧
            Forall (fun s : string => s ≠ "" ∧ trimmed s) []) as Hnil
      by (split; constructor).
  destruct (held self) as [d|]; [|by eexists].
  case_bool_decide; [|by eexists].
  destruct (getitem (Str coluna) d) as [|serie|]; [by eexists| |by eexists].
  eexists. split; [done|]. apply valores_sorted_trimmed.
Qed.

Lemma get_valores_unicos_unloaded coluna self :
  held self = None → get_valores_unicos coluna self = Returned [].
Proof.
  intros H. unfold get_valores_unicos, valores_unicos_try. by rewrite H.
Qed.

Lemma get_valores_unicos_unknown coluna self T :
  held self = Some T → Str coluna ∉ columns T →
  get_valores_unicos coluna self = Returned [].
Proof.
  intros H Hn. unfold get_valores_unicos, valores_unicos_try. rewrite H.
  by rewrite bool_decide_eq_false_2.
Qed.
End valores_facts.
Section render_facts.
Implicit Types (df : DataFrame) (self : PDFGenerator) (s : string).
Variable construir : string → Document → option exn.

Lemma safe_chars s : Forall (fun c => safe_char c) (PyStr.chars (nome_arquivo s)).
Proof.
  apply Forall_forall. intros c Hc%PyStrFacts.chars_strip.
  rewrite PyStrFacts.chars_keep in Hc.
  by apply list_elem_of_filter in Hc as [Hc _].
Qed.

Lemma nome_arquivo_not_absolute s :
  PyStr.startswith (nome_arquivo s +:+ ".pdf") "/" = false.
Proof.
  pose proof (safe_chars s) as H.
  destruct (nome_arquivo s) as [|c t]; [done|].
  simpl in H. apply Forall_cons in H as [Hc _].
  unfold PyStr.startswith.
  destruct c as [[] [] [] [] [] [] [] []]; try reflexivity.
  by vm_compute in Hc.
Qed.

(** The path [os.path.join] makes for a customer. *)
Lemma caminho_arquivo_de self s :
  caminho (output_dir self) s = arquivo_de self s.
Proof.
  unfold caminho, arquivo_de, PyStr.os_path_join, separador.
  rewrite nome_arquivo_not_absolute.
  by destruct (bool_decide (output_dir self = "")
               || PyStr.endswith_char (output_dir self) "/").
Qed.

Lemma py_eq_text c s : py_eq c (Str s) ↔ c = Str s.
Proof.
  unfold py_eq. destruct c; rewrite ?bool_decide_spec; try done.
Qed.

(** What [criar_pdf_por_cliente] hands to reportlab for a customer. *)
Lemma criar_pdf_cases df serie s self :
  getitem (Str "Cliente") df = OneColumn serie →
  criar_pdf_por_cliente construir df (Str s) self
  = match construir (arquivo_de self s) (documento df s) with
    | None =>
        ({| output_dir := output_dir self;
            escritos := escritos self ++ [(arquivo_de self s, documento df s)] |},
         Returned (arquivo_de self s))
    | Some e => (self, Raised e)
    end.
Proof.
  intros Hg. rewrite <- caminho_arquivo_de.
  unfold criar_pdf_por_cliente. rewrite Hg.
  apply getitem_one in Hg as ->. rewrite boolean_index_serie.
  unfold caminho, documento, rows_of_cliente. cbn [columns rows].
  rewrite (list_filter_iff _ (fun r => campo (Str "Cliente") (columns df) r = Str s));
    [done|]. intros r. apply py_eq_text.
Qed.

Lemma criar_pdf_not_text df serie c self :
  getitem (Str "Cliente") df = OneColumn serie → ¬ is_text c →
  criar_pdf_por_cliente construir df c self = (self, Raised TypeError).
Proof.
  intros Hg Hc. unfold criar_pdf_por_cliente. rewrite Hg.
  destruct c; try done. destruct Hc. by eexists.
Qed.

Lemma gerar_loop_text df serie (clientes : list string) : ∀ gerados self,
  getitem (Str "Cliente") df = OneColumn serie →
  aceitos construir df self clientes →
  gerar_loop construir (Str <$> clientes) df gerados self
  = ({| output_dir := output_dir self;
        escritos := escritos self
                    ++ ((fun s => (arquivo_de self s, documento df s))
                          <$> clientes) |},
     Returned (gerados ++ (arquivo_de self <$> clientes))).
Proof.
  induction clientes as [|s clientes IH]; intros gerados self Hg Hok.
  - simpl. rewrite !app_nil_r. by destruct self.
  - rewrite fmap_cons. cbn [gerar_loop].
    rewrite (criar_pdf_cases _ _ _ _ Hg), (Hok s) by left.
    rewrite IH; [|done|intros s' Hs'; apply Hok; by right].
    cbn [output_dir escritos].
    rewrite !fmap_cons, <- !app_assoc. done.
Qed.

Lemma gerar_loop_stops df serie (ss : list string) c resto e : ∀ gerados self,
  getitem (Str "Cliente") df = OneColumn serie →
  aceitos construir df self ss → recusado construir df self c e →
  gerar_loop construir ((Str <$> ss) ++ c :: resto) df gerados self
  = ({| output_dir := output_dir self;
        escritos := escritos self
                    ++ ((fun s => (arquivo_de self s, documento df s))
                          <$> ss) |},
     Raised e).
Proof.
  induction ss as [|s ss IH]; intros gerados self Hg Hok Hbad.
  - cbn [fmap list_fmap app gerar_loop]. rewrite app_nil_r.
    destruct Hbad as [[Hc ->]|(s & -> & Hs)].
    + rewrite (criar_pdf_not_text _ _ _ _ Hg Hc). by destruct self.
    + rewrite (criar_pdf_cases _ _ _ _ Hg), Hs. by destruct self.
  - rewrite fmap_cons, <- app_comm_cons. cbn [gerar_loop].
    rewrite (criar_pdf_cases _ _ _ _ Hg), (Hok s) by left.
    rewrite IH; [|done|intros s' Hs'; apply Hok; by right|done].
    cbn [output_dir escritos].
    rewrite !fmap_cons, <- !app_assoc. done.
Qed.

(** Every list of customers is of one of the two kinds. *)
Lemma clientes_cases df self (clientes : list cell) :
  (∃ ss, clientes = Str <$> ss ∧ aceitos construir df self ss)
  ∨ (∃ ss c resto e, clientes = (Str <$> ss) ++ c :: resto
                     ∧ aceitos construir df self ss ∧ recusado construir df self c e).
Proof.
  induction clientes as [|c clientes IH].
  - left. exists []. split; [done|]. by intros s ?%elem_of_nil.
  - destruct (decide (is_text c)) as [[s ->]|Hc].
    + destruct (construir (arquivo_de self s) (documento df s))
        as [e|] eqn:E.
      * right. exists [], (Str s), clientes, e.
        split; [done|]. split; [by intros ? ?%elem_of_nil|].
        right. by exists s.
      * assert (∀ ss, aceitos construir df self ss →
                      aceitos construir df self (s :: ss)) as Hcons.
        { intros ss Hss s' [->|Hs']%elem_of_cons; [done|by apply Hss]. }
        destruct IH as [(ss & -> & Hok)|(ss & c & resto & e & -> & Hok & Hbad)].
        -- left. exists (s :: ss). split; [done|by apply Hcons].
        -- right. exists (s :: ss), c, resto, e.
           split; [done|]. split; [by apply Hcons|done].
    + right. exists [], c, clientes, TypeError.
      split; [done|]. split; [by intros ? ?%elem_of_nil|]. by left.
Qed.

(** *** The safe name, character by character *)

Lemma chars_lstrip_split s :
  ∃ ws, PyStr.chars s = ws ++ PyStr.chars (PyStr.lstrip s)
        ∧ Forall (fun c => PyStr.isspace c) ws
        ∧ ∀ c, head (PyStr.chars (PyStr.lstrip s)) = Some c → ¬ PyStr.isspace c.
Proof.
  induction s as [|d s (ws & E & Hws & Hh)]; [by exists []|].
  cbn [PyStr.lstrip]. destruct (PyStr.isspace d) eqn:Ed.
  - exists (d :: ws). cbn [PyStr.chars]. rewrite E. split; [done|].
    split; [|done]. constructor; [by apply Is_true_true_2|done].
  - exists []. split; [done|]. split; [constructor|].
    cbn. intros c [= <-]. by apply Is_true_false_2.
Qed.

Lemma chars_rstrip_split s :
  ∃ ws, PyStr.chars s = PyStr.chars (PyStr.rstrip s) ++ ws
        ∧ Forall (fun c => PyStr.isspace c) ws
        ∧ ∀ c, last (PyStr.chars (PyStr.rstrip s)) = Some c → ¬ PyStr.isspace c.
Proof.
  induction s as [|d s (ws & E & Hws & Hl)]; [by exists []|].
  cbn [PyStr.rstrip]. destruct (PyStr.rstrip s) as [|e t] eqn:Er.
  - destruct (PyStr.isspace d) eqn:Ed.
    + exists (d :: ws). cbn [PyStr.chars] in *. rewrite E. split; [done|].
      split; [|done]. constructor; [by apply Is_true_true_2|done].
    + exists ws. cbn [PyStr.chars] in *. rewrite E. split; [done|].
      split; [done|]. cbn. intros c [= <-]. by apply Is_true_false_2.
  - exists ws. cbn [PyStr.chars] in *. rewrite E. split; [done|].
    split; [done|]. intros c Hc. apply Hl.
    by rewrite last_cons_cons in Hc.
Qed.

Lemma espaco_seguro c : PyStr.isspace c → safe_char c → c = " "%char.
Proof.
  destruct c as [[] [] [] [] [] [] [] []]; vm_compute; intros H1 H2;
    try done; by destruct H1 || by destruct H2.
Qed.

Lemma espacos (ws : list ascii) :
  Forall (fun c => PyStr.isspace c) ws → Forall (fun c => safe_char c) ws →
  ws = replicate (length ws) " "%char.
Proof.
  induction ws as [|c ws IH]; [done|].
  intros [H1 H1']%Forall_cons [H2 H2']%Forall_cons.
  cbn. by rewrite (espaco_seguro c), <- IH.
Qed.

(** The safe name is what is left of the name once the characters that
    are not safe are deleted, and then the spaces at both ends. *)
Lemma nome_arquivo_chars s :
  ∃ a b : nat,
    filter (fun c => safe_char c) (PyStr.chars s)
    = replicate a " "%char ++ PyStr.chars (nome_arquivo s)
      ++ replicate b " "%char
    ∧ head (PyStr.chars (nome_arquivo s)) ≠ Some " "%char
    ∧ last (PyStr.chars (nome_arquivo s)) ≠ Some " "%char.
Proof.
  unfold nome_arquivo, PyStr.strip. rewrite <- PyStrFacts.chars_keep.
  set (t := PyStr.keep safe_char s).
  assert (Forall (fun c => safe_char c) (PyStr.chars t)) as Hsafe.
  { unfold t. rewrite PyStrFacts.chars_keep. apply Forall_forall.
    by intros c [? _]%list_elem_of_filter. }
  destruct (chars_rstrip_split t) as (ws2 & E2 & Hws2 & Hl).
  destruct (chars_lstrip_split (PyStr.rstrip t)) as (ws1 & E1 & Hws1 & Hh).
  rewrite E2, E1 in Hsafe.
  apply Forall_app in Hsafe as [[Hs1 _]%Forall_app Hs2].
  exists (length ws1), (length ws2).
  rewrite <- (espacos ws1), <- (espacos ws2) by done.
  split; [by rewrite E2, E1, app_assoc|]. split.
  - intros H. by apply Hh in H.
  - intros H. apply (Hl " "%char); [|done]. by rewrite E1, last_app, H.
Qed.

End render_facts.

(** ** The load, cell by cell *)

Section load_cells.
Implicit Types (lab : cell) (labels r : list cell) (df : DataFrame).

Lemma filter_ext_in {A} (P1 P2 : A → Prop)
    `{!∀ x, Decision (P1 x), !∀ x, Decision (P2 x)} (l : list A) :
  (∀ x, x ∈ l → P1 x ↔ P2 x) → filter P1 l = filter P2 l.
Proof.
  induction l as [|a l IH]; intros Hext; [done|].
  rewrite !filter_cons, IH by (intros x Hx; apply Hext; by right).
  apply decide_ext, Hext. by left.
Qed.

Lemma fonte_columns arquivo : source_columns arquivo = columns (fonte arquivo).
Proof.
  unfold source_columns, fonte. destruct (find_header arquivo); [|done].
  by destruct (not_unnamed _).
Qed.

(** The four ways [processar] ends, with the frame it leaves. *)
Lemma processar_cases arquivo :
  processar arquivo = (None, (false, MsgSemCabecalho))
  ∨ (∃ d, processar arquivo = (Some d, (false, MsgErroProcessar TypeError))
          ∧ columns d ≠ colunas_esperadas)
  ∨ (∃ d, processar arquivo = (Some d, (false, MsgErroProcessar ValueError))
          ∧ columns d ≠ colunas_esperadas)
  ∨ (∃ T, processar arquivo = (Some T, (true, MsgSucesso))).
Proof.
  unfold processar. destruct (find_header arquivo) as [h|]; [|by left].
  right. destruct (not_unnamed _) as [mask|] eqn:Hm.
  - right. unfold reindex_columns. case_bool_decide as Hnd.
    + right. rewrite validar_esperadas. by eexists.
    + left. eexists. split; [done|]. intros Hc. apply Hnd. rewrite Hc.
      apply NoDup_esperadas.
  - left. eexists. split; [done|]. intros Hc. rewrite Hc in Hm. done.
Qed.

Lemma under_single lab labels r :
  under lab labels labels = [lab] → length r = length labels →
  under lab labels r = [campo lab labels r].
Proof.
  intros H1 Hlen. pose proof (under_length lab labels r Hlen) as Hl.
  rewrite H1 in Hl. unfold campo.
  by destruct (under lab labels r) as [|c [|??]].
Qed.

Lemma bind_under_single (names : list cell) labels r :
  (∀ n, n ∈ names → under n labels labels = [n]) →
  length r = length labels →
  names ≫= (fun n => under n labels r) = (fun n => campo n labels r) <$> names.
Proof.
  intros H Hlen. induction names as [|n names IH]; [done|].
  rewrite bind_cons, fmap_cons, IH by (intros m Hm; apply H; by right).
  by rewrite (under_single n labels r) by (done || apply H; by left).
Qed.

Lemma campo_fmap_NoDup (g : cell → cell) lab (names : list cell) :
  NoDup names → lab ∈ names → campo lab names (g <$> names) = g lab.
Proof.
  intros Hnd Hin. unfold campo. by rewrite under_fmap, under_NoDup.
Qed.

Lemma existsb_fmap {A B} (f : A → B) (p : B → bool) (l : list A) :
  existsb p (f <$> l) = existsb (fun x => p (f x)) l.
Proof. induction l as [|x l IH]; [done|]. simpl. by rewrite <- IH. Qed.

Lemma astype_str_serie lab df :
  lab ≠ Quantidade → lab ∈ columns df → well_shaped df →
  serie_de lab (astype_str df)
  = (fun c => Str (py_str c)) <$> serie_de lab df.
Proof.
  unfold well_shaped, serie_de, astype_str. cbn [columns rows].
  intros Hne Hin Hws. rewrite <- !list_fmap_compose.
  apply Forall_fmap_ext_1. eapply Forall_impl; [exact Hws|].
  intros r Hr. simpl. unfold campo. rewrite under_zip_with.
  pose proof (under_present lab (columns df) r Hin Hr) as Hnil.
  destruct (under lab (columns df) r) as [|c l]; [done|]. simpl.
  by rewrite bool_decide_eq_false_2.
Qed.

Lemma under_esperada_single lab labels :
  NoDup (filter (fun c => c ∈ colunas_esperadas) labels) →
  lab ∈ colunas_esperadas → lab ∈ labels →
  under lab labels labels = [lab].
Proof.
  intros Hnd HE Hin.
  assert (NoDup (under lab labels labels)) as Hu.
  { rewrite under_self_filter.
    erewrite list_filter_iff.
    - rewrite <- (list_filter_filter (fun l => l = lab)
                    (fun c => c ∈ colunas_esperadas)).
      by apply NoDup_filter.
    - intros x. simpl. split; [intros ->; done|tauto]. }
  pose proof (under_present lab labels labels Hin eq_refl) as Hne.
  pose proof (under_self_eq lab labels) as Heq.
  destruct (under lab labels labels) as [|x [|y l]]; [done| |].
  - f_equal. apply Heq. by left.
  - apply NoDup_cons in Hu as [Hx _]. destruct Hx.
    assert (x = lab) as -> by (apply Heq; by left).
    assert (y = lab) as -> by (apply Heq; right; by left).
    by left.
Qed.

(** The frame of line 58 on a source whose expected names are not
    repeated: the expected columns of the rows with a non-blank cell. *)
Lemma selecionadas_rows df2 :
  well_shaped df2 →
  NoDup (filter (fun c => c ∈ colunas_esperadas) (columns df2)) →
  let presentes := filter (fun col => col ∈ columns df2) colunas_esperadas in
  dropna_all (getitem_list presentes df2)
  = {| columns := presentes;
       rows := (fun r => (fun n => campo n (columns df2) r) <$> presentes)
                 <$> filter (fun r => linha_util (columns df2) r) (rows df2) |}.
Proof.
  intros Hws Hnd presentes.
  assert (∀ n, n ∈ presentes → under n (columns df2) (columns df2) = [n])
    as Hone.
  { intros n [Hin HE]%list_elem_of_filter. by apply under_esperada_single. }
  unfold dropna_all, getitem_list. cbn [columns rows]. f_equal.
  - induction presentes as [|n ps IH]; [done|].
    rewrite bind_cons, (Hone n) by (by left).
    rewrite IH by (intros m Hm; apply Hone; by right). done.
  - unfold well_shaped in Hws. induction Hws as [|r rs Hr _ IH]; [done|].
    rewrite fmap_cons, !filter_cons, IH.
    rewrite (bind_under_single _ _ _ Hone Hr).
    unfold linha_util. fold presentes. rewrite existsb_fmap.
    by destruct (existsb _ presentes).
Qed.

(** The table of a successful load, column by column, from the source. *)
Lemma loaded_from_fonte arquivo T :
  loads arquivo T →
  let df2 := fonte arquivo in
  let uteis := filter (fun r => linha_util (columns df2) r) (rows df2) in
  length (rows T) = length uteis
  ∧ ∀ lab, lab ∈ colunas_esperadas → lab ≠ Quantidade → lab ∈ columns df2 →
      serie_de lab T
      = (fun r => Str (py_str (campo lab (columns df2) r))) <$> uteis.
Proof.
  intros HT df2 uteis. apply loads_processar in HT as E.
  destruct (processar_inv _ _ _ _ E eq_refl)
    as (h & mask & Hh & Hm & Hnd & _ & ->).
  assert (df2 = strip_columns (loc_columns mask (read_excel_header arquivo h)))
    as Hdf2 by (unfold df2, fonte; by rewrite Hh, Hm).
  rewrite <- Hdf2 in *. clear Hdf2.
  assert (well_shaped df2) as Hws.
  { unfold df2, fonte. rewrite Hh, Hm. apply df2_well_shaped. }
  apply numerada_NoDup_inv in Hnd as Hnd2.
  pose proof (selecionadas_rows df2 Hws Hnd2) as Hsel. cbn zeta in Hsel.
  set (presentes := filter (fun col => col ∈ columns df2) colunas_esperadas)
    in *.
  assert (NoDup presentes) as Hndp by apply NoDup_filter, NoDup_esperadas.
  split.
  - cbn [rows]. rewrite length_fmap. unfold numerada. fold presentes.
    rewrite setitem_rows_length by apply range_from_length.
    unfold astype_str at 1. cbn [rows]. rewrite length_fmap, Hsel.
    cbn [rows]. by rewrite length_fmap.
  - intros lab HE Hne Hin. rewrite reindex_serie by done.
    unfold numerada. fold presentes.
    assert (well_shaped (dropna_all (getitem_list presentes df2))) as Hws4
        by (by apply dropna_all_well_shaped, getitem_list_well_shaped).
    rewrite setitem_serie_ne;
      [|done|by apply astype_str_well_shaped|apply range_from_length].
    rewrite astype_str_serie; [|done| |done].
    + rewrite Hsel. unfold serie_de. cbn [columns rows].
      rewrite <- !list_fmap_compose. apply list_fmap_ext. intros _ r _. simpl.
      rewrite (campo_fmap_NoDup (fun n => campo n (columns df2) r)); [done..|].
      by apply list_elem_of_filter.
    + rewrite Hsel. cbn [columns]. by apply list_elem_of_filter.
Qed.
End load_cells.

(** ** The load, position by position *)

Section load_positions.
Implicit Types (lab : cell) (labels r line : list cell) (mask : list bool).

Lemma existsb_elem {A} (p : A → bool) (l : list A) :
  existsb p l ↔ ∃ x, x ∈ l ∧ p x.
Proof.
  induction l as [|a l IH]; cbn [existsb].
  - split; [done|]. by intros (x & ?%elem_of_nil & _).
  - rewrite orb_True, IH. split.
    + intros [H|(x & Hx & Hp)]; [exists a; split; [left|done]|].
      exists x. split; [by right|done].
    + intros (x & [->|Hx]%elem_of_cons & Hp); [by left|right; eauto].
Qed.

Lemma filter_fmap_comm {A B} (g : A → B) (P : B → bool) (l : list A) :
  filter (fun y => P y) (g <$> l) = g <$> filter (fun x => P (g x)) l.
Proof.
  induction l as [|a l IH]; [done|].
  rewrite fmap_cons, !filter_cons, IH. by destruct (P (g a)).
Qed.

Lemma zip_mask_filter {A B} mask (l1 : list A) (l2 : list B) :
  zip (mask_filter mask l1) (mask_filter mask l2) = mask_filter mask (zip l1 l2).
Proof.
  revert l1 l2. induction mask as [|b mask IH]; intros [|x l1] [|y l2];
    cbn [mask_filter zip zip_with]; try done.
  - by rewrite zip_with_nil_r.
  - destruct b; cbn [zip zip_with]; by rewrite <- IH.
Qed.

Lemma mask_filter_lookup {A} mask (l : list A) x :
  x ∈ mask_filter mask l ↔ ∃ i, mask !! i = Some true ∧ l !! i = Some x.
Proof.
  revert l. induction mask as [|b mask IH]; intros [|y l]; cbn [mask_filter].
  - split; [by intros ?%elem_of_nil|]. by intros (i & ? & _).
  - split; [by intros ?%elem_of_nil|]. by intros (i & ? & _).
  - split; [by intros ?%elem_of_nil|]. by intros (i & _ & ?).
  - assert (x ∈ mask_filter mask l ↔
            ∃ i, (b :: mask) !! S i = Some true ∧ (y :: l) !! S i = Some x)
      as Htail by apply IH.
    destruct b.
    + rewrite elem_of_cons, Htail. split.
      * intros [->|(i & ? & ?)]; [by exists 0|by exists (S i)].
      * intros ([|i] & Hm & Hl); [left; by injection Hl|right; by exists i].
    + rewrite Htail. split.
      * intros (i & ? & ?). by exists (S i).
      * intros ([|i] & Hm & Hl); [done|by exists i].
Qed.

(** The pairs of a label and a cell in a row of the selection of line 47,
    by their position in the sheet. *)
Lemma zip_masked (f : cell → cell) mask labels r a b :
  (a, b) ∈ zip (f <$> mask_filter mask labels) (mask_filter mask r)
  ↔ ∃ i a0, mask !! i = Some true ∧ labels !! i = Some a0 ∧ f a0 = a
            ∧ r !! i = Some b.
Proof.
  rewrite <- mask_filter_fmap, zip_mask_filter, mask_filter_lookup. split.
  - intros (i & Hm & Hz). exists i.
    apply lookup_zip_with_Some in Hz as (a1 & b1 & [= <- <-] & Ha & Hb).
    rewrite list_lookup_fmap in Ha.
    destruct (labels !! i) as [a0|]; [|done]. injection Ha as <-.
    by exists a0.
  - intros (i & a0 & Hm & Ha & <- & Hb). exists i. split; [done|].
    apply lookup_zip_with_Some. exists (f a0), b.
    by rewrite list_lookup_fmap, Ha.
Qed.

Lemma campo_of_pair lab labels r c :
  under lab labels labels = [lab] → (lab, c) ∈ zip labels r →
  campo lab labels r = c.
Proof.
  unfold campo, under. revert r.
  induction labels as [|l labels IH]; intros [|x r]; cbn [zip zip_with];
    try (by intros _ ?%elem_of_nil).
  rewrite !fmap_cons. cbn [mask_filter]. case_bool_decide as E.
  - subst l. intros [= Hu] Hin. cbn.
    apply elem_of_cons in Hin as [[= ->]|Hin]; [done|].
    assert (lab ∈ labels) as Hl.
    { apply elem_of_zip_l in Hin. exact Hin. }
    apply (under_present lab labels labels) in Hl; [|done]. by destruct Hl.
  - intros Hu Hin. apply elem_of_cons in Hin as [[= -> ->]|Hin]; [done|].
    by apply IH.
Qed.

Lemma campo_pair lab labels r :
  notna (campo lab labels r) → (lab, campo lab labels r) ∈ zip labels r.
Proof.
  unfold campo, under. revert r.
  induction labels as [|l labels IH]; intros [|x r]; try done.
  rewrite fmap_cons. cbn [mask_filter zip zip_with]. case_bool_decide as E.
  - subst l. cbn. intros _. left.
  - intros H. right. by apply IH.
Qed.

Lemma not_unnamed_mask labels mask :
  not_unnamed labels = Some mask →
  mask = (fun l => negb (PyStr.startswith (py_str l) "Unnamed")) <$> labels.
Proof.
  revert mask. induction labels as [|l labels IH]; intros mask;
    cbn [not_unnamed]; [by intros [= <-]|].
  destruct l as [|s|z]; try done.
  destruct (not_unnamed labels) as [m|]; [|done].
  intros [= <-]. by rewrite fmap_cons, <- (IH m).
Qed.

Lemma nomes_lookup line i lab :
  nomes line !! i = Some (Some lab) ↔
  ∃ l0, header_labels 0 [] line !! i = Some l0
        ∧ PyStr.startswith (py_str l0) "Unnamed" = false
        ∧ Str (PyStr.strip (py_str l0)) = lab.
Proof.
  unfold nomes. rewrite list_lookup_fmap.
  destruct (header_labels 0 [] line !! i) as [l0|]; cbn.
  - destruct (PyStr.startswith (py_str l0) "Unnamed") eqn:E.
    + split; [done|]. intros (? & [= <-] & ? & _). congruence.
    + split.
      * intros [= <-]. by exists l0.
      * by intros (? & [= <-] & _ & ->).
  - split; [done|]. by intros (? & ? & _).
Qed.

Lemma nomes_length line : length (nomes line) = length line.
Proof. unfold nomes. by rewrite length_fmap, header_labels_length. Qed.

(** The labels of line 50 are the names of the positions. *)
Lemma columns_nomes (labels : list cell) :
  (fun col => Str (PyStr.strip (py_str col)))
    <$> mask_filter ((fun l => negb (PyStr.startswith (py_str l) "Unnamed"))
                       <$> labels) labels
  = omap id ((fun l => if PyStr.startswith (py_str l) "Unnamed" then None
                       else Some (Str (PyStr.strip (py_str l)))) <$> labels).
Proof.
  induction labels as [|l labels IH]; [done|].
  rewrite !fmap_cons. cbn [mask_filter omap list_omap].
  destruct (PyStr.startswith (py_str l) "Unnamed"); cbn; by rewrite IH.
Qed.

Lemma celula_resize i (n : nat) r :
  i < n → resize n NaN r !! i = Some (celula i r).
Proof.
  intros Hi. unfold celula. destruct (r !! i) as [c|] eqn:E.
  - by rewrite lookup_resize by (done || by eapply lookup_lt_Some).
  - apply lookup_ge_None in E. by rewrite lookup_resize_new.
Qed.

(** The name of a position is the trimmed text of its cell, for a text
    the line has at no earlier position and that pandas does not take
    for one of its own names. *)
Lemma header_labels_first s : ∀ line i seen j,
  line !! j = Some (Str s) → (∀ k, k < j → line !! k ≠ Some (Str s)) →
  PyStr.startswith s "Unnamed" = false → Str s ∉ seen →
  header_labels i seen line !! j = Some (Str s).
Proof.
  induction line as [|c line IH]; intros i seen j Hj Hfirst Hu Hseen; [done|].
  cbn [header_labels]. destruct j as [|j].
  - injection Hj as ->. cbn.
    destruct (filter (fun x => x = Str s) seen) as [|x l] eqn:E; [done|].
    assert (x ∈ filter (fun x => x = Str s) seen) as [-> Hx]%list_elem_of_filter
      by (rewrite E; left).
    by destruct Hseen.
  - cbn. apply IH; [done| |done|].
    + intros k Hk. apply (Hfirst (S k)). lia.
    + apply not_elem_of_cons. split; [|done].
      pose proof (Hfirst 0 ltac:(lia)) as H0. cbn in H0.
      destruct c as [|t|z]; [|congruence|done].
      intros [= ->]. done.
Qed.

Lemma nomes_first line j s :
  line !! j = Some (Str s) → (∀ k, k < j → line !! k ≠ Some (Str s)) →
  PyStr.startswith s "Unnamed" = false →
  nomes line !! j = Some (Some (Str (PyStr.strip s))).
Proof.
  intros Hj Hfirst Hu. apply nomes_lookup. exists (Str s).
  split; [|done]. apply header_labels_first; [done..|]. apply not_elem_of_nil.
Qed.

Section one_line.
(** A header line, the mask of line 47 on its labels, and the labels of
    line 50. *)
Variables (line : list cell) (mask : list bool).
Hypothesis Hmask : not_unnamed (header_labels 0 [] line) = Some mask.

Lemma L_nomes : colunas_lidas line mask = omap id (nomes line).
Proof.
  unfold colunas_lidas, nomes. rewrite (not_unnamed_mask _ _ Hmask).
  apply columns_nomes.
Qed.

Lemma pair_position lab c r :
  (lab, c) ∈ zip (colunas_lidas line mask) (linha_lida line mask r)
  ↔ ∃ i, nomes line !! i = Some (Some lab) ∧ celula i r = c.
Proof.
  unfold colunas_lidas, linha_lida. rewrite zip_masked. split.
  - intros (i & l0 & Hm & Hl & <- & Hr). exists i.
    assert (i < length line) as Hi.
    { rewrite <- (header_labels_length 0 [] line). by eapply lookup_lt_Some. }
    rewrite celula_resize in Hr by done. injection Hr as <-. split; [|done].
    apply nomes_lookup. exists l0. split; [done|]. split; [|done].
    rewrite (not_unnamed_mask _ _ Hmask), list_lookup_fmap, Hl in Hm.
    injection Hm as Hm. by apply negb_true_iff.
  - intros (i & (l0 & Hl & Hu & <-)%nomes_lookup & <-). exists i, l0.
    assert (i < length line) as Hi.
    { rewrite <- (header_labels_length 0 [] line). by eapply lookup_lt_Some. }
    split; [|split; [done|split; [done|by apply celula_resize]]].
    by rewrite (not_unnamed_mask _ _ Hmask), list_lookup_fmap, Hl; cbn; rewrite Hu.
Qed.

Lemma nome_in_L lab i :
  nomes line !! i = Some (Some lab) → lab ∈ colunas_lidas line mask.
Proof.
  intros H. rewrite L_nomes. apply list_elem_of_omap. exists (Some lab).
  split; [|done]. by eapply list_elem_of_lookup_2.
Qed.

Lemma L_in_nome lab :
  lab ∈ colunas_lidas line mask → ∃ i, nomes line !! i = Some (Some lab).
Proof.
  rewrite L_nomes. intros (o & Ho & E)%list_elem_of_omap. cbn in E. subst o.
  by apply list_elem_of_lookup_1.
Qed.

Hypothesis Hnd :
  NoDup (filter (fun c => c ∈ colunas_esperadas) (colunas_lidas line mask)).

Lemma campo_position lab i r :
  lab ∈ colunas_esperadas → nomes line !! i = Some (Some lab) →
  campo lab (colunas_lidas line mask) (linha_lida line mask r) = celula i r.
Proof.
  intros HE Hi. apply campo_of_pair.
  - apply under_esperada_single; [done|done|by eapply nome_in_L].
  - apply pair_position. by exists i.
Qed.

Lemma linha_util_position r :
  linha_util (colunas_lidas line mask) (linha_lida line mask r)
  = linha_com_dado line r.
Proof.
  apply eq_bool_prop_intro. unfold linha_util, linha_com_dado.
  rewrite !existsb_elem. split.
  - intros (lab & [Hin HE]%list_elem_of_filter & Hn).
    apply campo_pair in Hn as Hp. apply pair_position in Hp as (i & Hi & Hc).
    exists i. split.
    + apply elem_of_seq. split; [lia|]. cbn.
      rewrite <- nomes_length. by eapply lookup_lt_Some.
    + rewrite Hi, Hc. apply andb_True. split; [by apply bool_decide_pack|done].
  - intros (i & _ & Hp). destruct (nomes line !! i) as [[lab|]|] eqn:Hi;
      try done. apply andb_True in Hp as [HE%bool_decide_unpack Hn].
    exists lab. split.
    + apply list_elem_of_filter. split; [by eapply nome_in_L|done].
    + by rewrite (campo_position lab i).
Qed.

End one_line.

(** The frame of line 50 when line [h] is the header. *)
Lemma fonte_line arquivo h line mask :
  find_header arquivo = Some h → arquivo !! h = Some line →
  not_unnamed (header_labels 0 [] line) = Some mask →
  fonte arquivo
  = {| columns := colunas_lidas line mask;
       rows := linha_lida line mask <$> drop (S h) arquivo |}.
Proof.
  intros Hh Hl Hm. unfold fonte. rewrite Hh. cbv zeta.
  unfold read_excel_header. rewrite Hl. cbn [default columns]. unfold id.
  rewrite Hm.
  unfold strip_columns, loc_columns, colunas_lidas. cbn [columns rows].
  rewrite <- list_fmap_compose. f_equal.
Qed.

Lemma loads_mask arquivo T h line :
  loads arquivo T → find_header arquivo = Some h → arquivo !! h = Some line →
  ∃ mask, not_unnamed (header_labels 0 [] line) = Some mask
          ∧ NoDup (filter (fun c => c ∈ colunas_esperadas)
                          (colunas_lidas line mask)).
Proof.
  intros HT Hh Hl. apply loads_processar in HT.
  destruct (processar_inv _ _ _ _ HT eq_refl)
    as (h' & mask & Hh' & Hm & Hnd & _).
  rewrite Hh in Hh'. injection Hh' as <-.
  unfold read_excel_header in Hm, Hnd. rewrite Hl in Hm, Hnd.
  cbn [default columns] in Hm, Hnd. unfold id in Hm, Hnd.
  exists mask. split; [done|].
  apply numerada_NoDup_inv in Hnd. exact Hnd.
Qed.

(** The table of a successful load, from the lines below the header. *)
Lemma loaded_by_position arquivo T h line :
  loads arquivo T → find_header arquivo = Some h → arquivo !! h = Some line →
  let abaixo := filter (fun r => linha_com_dado line r) (drop (S h) arquivo) in
  length (rows T) = length abaixo
  ∧ (∀ lab i, lab ∈ colunas_esperadas → lab ≠ Quantidade →
       nomes line !! i = Some (Some lab) →
       serie_de lab T = (fun r => Str (py_str (celula i r))) <$> abaixo)
  ∧ (∀ lab, lab ∈ colunas_esperadas → lab ≠ Quantidade →
       (∀ i, nomes line !! i ≠ Some (Some lab)) →
       serie_de lab T = replicate (length (rows T)) NaN).
Proof.
  intros HT Hh Hl abaixo.
  destruct (loads_mask _ _ _ _ HT Hh Hl) as (mask & Hm & Hnd).
  destruct (loaded_from_fonte arquivo T HT) as [Hlen Hser].
  rewrite (fonte_line _ _ _ _ Hh Hl Hm) in Hlen, Hser. cbn [columns rows] in *.
  rewrite (filter_fmap_comm (linha_lida line mask) (linha_util _))
    in Hlen, Hser.
  rewrite (filter_ext_in _ (fun r => linha_com_dado line r)) in Hlen, Hser
    by (intros r _; by rewrite (linha_util_position line mask Hm Hnd)).
  fold abaixo in Hlen, Hser. split; [|split].
  - by rewrite Hlen, length_fmap.
  - intros lab i HE Hne Hi. rewrite Hser; [|done|done|by eapply nome_in_L].
    rewrite <- list_fmap_compose. apply list_fmap_ext. intros _ r _. cbn.
    by rewrite (campo_position line mask Hm Hnd lab i).
  - intros lab HE Hne Hno. apply (loaded_missing arquivo); [done..|].
    rewrite fonte_columns, (fonte_line _ _ _ _ Hh Hl Hm). cbn [columns].
    intros Hin. apply (L_in_nome line mask Hm) in Hin as [i Hi].
    by apply (Hno i).
Qed.

(** A header line is valid when the sheet it heads is. *)
Lemma header_valido_line arquivo h line :
  find_header arquivo = Some h → arquivo !! h = Some line →
  header_valido arquivo ↔ linha_valida line.
Proof.
  intros Hh Hl. unfold header_valido, linha_valida.
  assert (Forall (fun c => ∀ z, c ≠ Num z) line →
          source_columns arquivo = omap id (nomes line)) as Hsrc.
  { intros Hnum.
    destruct (not_unnamed_header 0 [] line Hnum) as [mask Hm].
    rewrite fonte_columns, (fonte_line _ _ _ _ Hh Hl Hm). cbn [columns].
    by apply L_nomes. }
  split.
  - intros (h' & line' & Hh' & Hl' & Hnum & Hnd).
    rewrite Hh in Hh'. injection Hh' as <-.
    rewrite Hl in Hl'. injection Hl' as <-.
    split; [done|]. by rewrite <- Hsrc.
  - intros [Hnum Hnd]. exists h, line. by rewrite Hsrc.
Qed.

(** With a header line the load answers anything but that it found
    none, and it answers true exactly when the line is valid. *)
Lemma processar_arquivo_line arquivo h line self :
  find_header arquivo = Some h → arquivo !! h = Some line →
  (processar_arquivo arquivo self).2 ≠ (false, MsgSemCabecalho)
  ∧ ((processar_arquivo arquivo self).2 = (true, MsgSucesso)
     ↔ linha_valida line)
  ∧ ((processar_arquivo arquivo self).2.1 = true ↔ linha_valida line).
Proof.
  intros Hh Hl.
  assert ((processar_arquivo arquivo self).2 = (processar arquivo).2) as ->.
  { unfold processar_arquivo. destruct (processar arquivo) as [[d|] r]; [|done].
    by destruct (alloc d _). }
  rewrite <- (header_valido_line arquivo h line Hh Hl).
  rewrite <- loads_iff_header_valido.
  assert (processar arquivo ≠ (None, (false, MsgSemCabecalho))) as Hsome.
  { unfold processar. rewrite Hh. destruct (not_unnamed _); [|done].
    destruct (reindex_columns _ _); [|done].
    by destruct (validar_colunas _) as [[] ?]. }
  destruct (processar_cases arquivo) as [E|[(d & E & _)|[(d & E & _)|(T & E)]]];
    [done|rewrite E; cbn..].
  - split; [done|]. split; (split; [done|]); intros [T HT];
      apply loads_processar in HT; congruence.
  - split; [done|]. split; (split; [done|]); intros [T HT];
      apply loads_processar in HT; congruence.
  - split; [done|]. split; (split; [intros _|done]); exists T;
      by apply loads_processar.
Qed.

End load_positions.

(** ** The example workbook *)

Lemma planilha_exemplo_loads : loads planilha_exemplo tabela_exemplo.
Proof.
  exists init, processador_exemplo, MsgSucesso.
  split; vm_compute; reflexivity.
Qed.

Lemma processador_exemplo_held : held processador_exemplo = Some tabela_exemplo.
Proof. vm_compute. reflexivity. Qed.

Lemma planilha_exemplo_valida : header_valido planilha_exemplo.
Proof.
  exists 1, [Str "Item"; Str "Cliente"; Str "Cidade"; Str "Quantidade"].
  split; [reflexivity|]. split; [reflexivity|]. split.
  - repeat constructor; done.
  - compute_done.
Qed.

(** ** Statements about the operations *)

(** What holds of [filtrar_dados] whenever a table is held: it returns,
    and with a restriction no row meets it returns no row. *)
Lemma Filter_returns_when_held filtros self T :
  held self = Some T → ∃ F, Filter filtros self = Returned F.
Proof. intros H. eexists. by apply Filter_value. Qed.

Lemma Filter_no_match_empty filtros self T :
  columns T = colunas_esperadas →
  Forall (fun '(coluna, _) => Str coluna ∈ colunas_esperadas) filtros →
  Forall (fun r => ¬ aceita filtros (columns T) r) (rows T) →
  held self = Some T →
  ∃ F, Filter filtros self = Returned F ∧ rows F = [].
Proof.
  intros Hc Hcols Hnone Hheld. rewrite (Filter_value _ _ _ Hheld).
  eexists. split; [done|].
  assert (∃ d2, selecionar filtros T = Returned d2) as [d2 E].
  { clear Hnone Hheld. revert T Hc.
    induction Hcols as [|[coluna valor] rest Hin _ IH]; intros T Hc;
      [by eexists|].
    cbn [selecionar]. destruct valor as [|v valor]; [by apply IH|].
    rewrite (getitem_esperadas _ _ Hc Hin). by apply IH. }
  apply length_zero_iff_nil. rewrite (filtrado_rows _ _ _ E).
  apply length_zero_iff_nil. induction Hnone as [|r rs Hr _ IH]; [done|].
  by rewrite filter_cons_False.
Qed.

(** C1: in the table of a successful load, and in every table
    [filtrar_dados] returns on it, the Quantidade column reads 1, 2, ..., N
    down the N rows; this holds for every workbook, whatever Quantidade
    values it carries. *)
Theorem quantidade_is_row_number (arquivo : sheet) (T : DataFrame) :
  loads arquivo T →
  getitem Quantidade T = OneColumn (range_from 1 (length (rows T)))
  ∧ ∀ self filtros,
      held self = Some T →
      ∃ F, Filter filtros self = Returned F
           ∧ getitem Quantidade F
             = OneColumn (range_from 1 (length (rows F))).
Proof.
  intros HT.
  pose proof (loaded_columns _ _ HT) as Hc.
  pose proof (loaded_well_shaped _ _ HT) as Hws.
  pose proof (loaded_quantidade _ _ HT) as HQ.
  split.
  - rewrite getitem_esperadas by (done || compute_done). by rewrite HQ.
  - intros self filtros Hheld. exists (filtrado filtros T).
    split; [by apply Filter_value|].
    rewrite getitem_esperadas
      by (by apply filtrado_columns || compute_done).
    by rewrite filtrado_quantidade.
Qed.

Lemma quantidade_is_row_number_witness :
  loads planilha_exemplo tabela_exemplo
  ∧ getitem Quantidade tabela_exemplo = OneColumn [Num 1; Num 2; Num 3].
Proof.
  assert (loads planilha_exemplo tabela_exemplo) as H.
  { exists init, processador_exemplo, MsgSucesso.
    split; vm_compute; reflexivity. }
  split; [exact H|].
  exact (proj1 (quantidade_is_row_number planilha_exemplo tabela_exemplo H)).
Defined.

(** C2: the table of a successful load has exactly the eight expected
    columns, in the expected order, whatever the columns of the workbook;
    every table [filtrar_dados] returns on it has the same columns. *)
Theorem load_columns_canonical (arquivo : sheet) (T : DataFrame) :
  loads arquivo T →
  columns T = [Str "Item"; Str "Chassi"; Str "Modelo"; Str "Cliente";
               Str "Cidade"; Str "Status Funcionamento"; Str Manutencao;
               Str "Quantidade"]
  ∧ ∀ self filtros,
      held self = Some T →
      ∃ F, Filter filtros self = Returned F ∧ columns F = columns T.
Proof.
  intros HT. pose proof (loaded_columns _ _ HT) as Hc. split; [exact Hc|].
  intros self filtros Hheld. exists (filtrado filtros T).
  split; [by apply Filter_value|]. rewrite Hc. by apply filtrado_columns.
Qed.

Lemma load_columns_canonical_witness :
  loads planilha_exemplo tabela_exemplo
  ∧ columns tabela_exemplo
    = [Str "Item"; Str "Chassi"; Str "Modelo"; Str "Cliente";
       Str "Cidade"; Str "Status Funcionamento"; Str Manutencao;
       Str "Quantidade"].
Proof.
  assert (loads planilha_exemplo tabela_exemplo) as H.
  { exists init, processador_exemplo, MsgSucesso.
    split; vm_compute; reflexivity. }
  split; [exact H|].
  exact (proj1 (load_columns_canonical planilha_exemplo tabela_exemplo H)).
Defined.

(** C3: the header line is the first line, from the top, with a cell that
    is exactly [item] once trimmed and lowercased, and the load reads the
    sheet with that line as its header: it then answers anything but that
    no header was found, it answers true exactly when that line is valid,
    its table has one row for each line below it with a non-blank cell
    under an expected name of that line, and the name of a position is the
    trimmed text of the cell the line has there; the lines above it play
    no part. A cell that only contains [item] does not count; and with no
    such line the load answers false and leaves [self.df] as it was. *)
Theorem header_is_first_exact_item (arquivo : sheet) :
  (∀ h, find_header arquivo = Some h ↔
        (∃ row, arquivo !! h = Some row ∧ ∃ c, c ∈ row ∧ item_cell c)
        ∧ ∀ j row, j < h → arquivo !! j = Some row →
                   ¬ ∃ c, c ∈ row ∧ item_cell c)
  ∧ (∀ h line, find_header arquivo = Some h → arquivo !! h = Some line →
       (∀ self,
          (processar_arquivo arquivo self).2 ≠ (false, MsgSemCabecalho)
          ∧ ((processar_arquivo arquivo self).2 = (true, MsgSucesso)
             ↔ linha_valida line)
          ∧ ((processar_arquivo arquivo self).2.1 = true ↔ linha_valida line))
       ∧ (∀ T, loads arquivo T →
               length (rows T)
               = length (filter (fun r => linha_com_dado line r)
                                (drop (S h) arquivo)))
       ∧ (∀ j s, line !! j = Some (Str s) →
                 (∀ k, k < j → line !! k ≠ Some (Str s)) →
                 PyStr.startswith s "Unnamed" = false →
                 nomes line !! j = Some (Some (Str (PyStr.strip s)))))
  ∧ (∀ h self, find_header arquivo = Some h →
       processar_arquivo arquivo self
       = processar_arquivo (drop h arquivo) self)
  ∧ ((∀ row c, row ∈ arquivo → c ∈ row → ¬ item_cell c) →
     ∀ self, processar_arquivo arquivo self = (self, (false, MsgSemCabecalho)))
  ∧ ¬ item_cell (Str "Item number")
  ∧ find_header [[Str "Item number"; Str "items"]; [Str "x"; Str "y"]] = None.
Proof.
  split; [|split; [|split; [|split; [|split]]]].
  - intros h. rewrite find_header_Some. split.
    + intros [(row & Hrow & Hitem) Hfirst]. split.
      * exists row. split; [done|]. by apply has_item_spec.
      * intros j row' Hj Hl Hc. apply (Hfirst j row' Hj Hl).
        by apply has_item_spec.
    + intros [(row & Hrow & Hitem) Hfirst]. split.
      * exists row. split; [done|]. by apply has_item_spec.
      * intros j row' Hj Hl Hc. apply (Hfirst j row' Hj Hl).
        by apply has_item_spec.
  - intros h line Hh Hl. split; [|split].
    + intros self. by apply (processar_arquivo_line arquivo h).
    + intros T HT. by apply (loaded_by_position arquivo T h line).
    + intros j s. apply nomes_first.
  - intros h self Hh. unfold processar_arquivo.
    by rewrite (processar_drop _ _ Hh).
  - intros Hnone self. unfold processar_arquivo, processar.
    assert (find_header arquivo = None) as ->; [|done].
    apply find_header_from_None, Forall_forall.
    intros row Hrow (c & Hc & Hitem)%has_item_spec. by eapply Hnone.
  - intros [_ H]. vm_compute in H. discriminate.
  - reflexivity.
Qed.

(** C4, at a processor that holds no table: [self.df.copy()] fails in the
    [try] and again in the handler, so the call ends in an exception
    instead of returning a table. *)
Theorem filtrar_dados_without_table (filtros : filtros_t)
    (h : gmap nat DataFrame) :
  filtrar_dados filtros {| heap := h; self_df := None |}
  = ({| heap := h; self_df := None |}, Raised AttributeError)
  ∧ Filter filtros init = Raised AttributeError.
Proof.
  split.
  - by apply filtrar_dados_sem_tabela.
  - unfold Filter. by rewrite filtrar_dados_sem_tabela.
Qed.
(** C5, as stated, fails: the load keeps the text of a cell as it is, so
    the customer [ Acme] of the example keeps its leading space, and a
    column the workbook lacks holds no text at all. *)
Lemma stored_fields_trimmed_text_counterexample :
  ¬ ∀ (arquivo : sheet) (T : DataFrame) (lab : cell) (r : list cell),
      loads arquivo T → lab ∈ colunas_esperadas → lab ≠ Quantidade →
      r ∈ rows T →
      ∃ s, campo lab (columns T) r = Str s ∧ trimmed s.
Proof.
  intros H.
  assert (loads planilha_exemplo tabela_exemplo) as HT.
  { exists init, processador_exemplo, MsgSucesso.
    split; vm_compute; reflexivity. }
  destruct (H planilha_exemplo tabela_exemplo (Str "Cliente")
              [Str "M2"; NaN; NaN; Str " Acme"; Str "Porto"; NaN; NaN; Num 2]
              HT)
    as (s & Hs & Htrim & _); [compute_done|done|compute_done|].
  vm_compute in Hs. injection Hs as <-. vm_compute in Htrim. discriminate.
Qed.

(** C5, amended: in the table of a successful load, a column other than
    Quantidade that the header line names holds, row by row, the text of
    the cell the workbook has at that position of the lines kept: every
    cell of it is text, the text is [nan] where the workbook's cell is
    blank, and where the workbook's cell is a text that can be taken for
    no number it is that very text, leading and trailing whitespace
    included. A column the header line does not name holds a missing
    value in every row. *)
Theorem stored_fields_are_text (arquivo : sheet) (T : DataFrame) (h : nat)
    (line : list cell) (lab : cell) :
  loads arquivo T → find_header arquivo = Some h → arquivo !! h = Some line →
  lab ∈ colunas_esperadas → lab ≠ Quantidade →
  (∀ i, nomes line !! i = Some (Some lab) →
        Forall2 (fun r guardado =>
                   is_text guardado
                   ∧ (celula i r = NaN → guardado = Str "nan")
                   ∧ ∀ s, celula i r = Str s → texto_simples s →
                          guardado = Str s)
                (filter (fun r => linha_com_dado line r) (drop (S h) arquivo))
                (serie_de lab T))
  ∧ ((∀ i, nomes line !! i ≠ Some (Some lab)) →
     serie_de lab T = replicate (length (rows T)) NaN).
Proof.
  intros HT Hh Hl HE Hne.
  destruct (loaded_by_position arquivo T h line HT Hh Hl) as (_ & Hpos & Hno).
  split.
  - intros i Hi. rewrite (Hpos lab i HE Hne Hi).
    apply Forall2_fmap_r, Forall_Forall2_diag, Forall_forall.
    intros r _. split; [by eexists|]. split.
    + by intros ->.
    + by intros s -> _.
  - by apply Hno.
Qed.

Lemma stored_fields_are_text_witness :
  (loads planilha_exemplo tabela_exemplo
   ∧ find_header planilha_exemplo = Some 1
   ∧ planilha_exemplo !! 1
     = Some [Str "Item"; Str "Cliente"; Str "Cidade"; Str "Quantidade"]
   ∧ Str "Cliente" ∈ colunas_esperadas ∧ Str "Cliente" ≠ Quantidade
   ∧ nomes [Str "Item"; Str "Cliente"; Str "Cidade"; Str "Quantidade"] !! 1
     = Some (Some (Str "Cliente")))
  ∧ Forall2 (fun r guardado =>
               is_text guardado
               ∧ (celula 1 r = NaN → guardado = Str "nan")
               ∧ ∀ s, celula 1 r = Str s → texto_simples s → guardado = Str s)
            [[Str "M1"; Str "Acme"; Str "Lisboa"; Num 7];
             [Str "M2"; Str " Acme"; Str "Porto"; Num 9];
             [Str "M3"; Str "Beta"; NaN; NaN]]
            [Str "Acme"; Str " Acme"; Str "Beta"].
Proof.
  assert (loads planilha_exemplo tabela_exemplo) as H.
  { exists init, processador_exemplo, MsgSucesso.
    split; vm_compute; reflexivity. }
  assert (find_header planilha_exemplo = Some 1) as Hh
      by (vm_compute; reflexivity).
  assert (planilha_exemplo !! 1
          = Some [Str "Item"; Str "Cliente"; Str "Cidade"; Str "Quantidade"])
    as Hl by reflexivity.
  assert (Str "Cliente" ∈ colunas_esperadas) as HE by compute_done.
  assert (Str "Cliente" ≠ Quantidade) as Hne by (vm_compute; discriminate).
  assert (nomes [Str "Item"; Str "Cliente"; Str "Cidade"; Str "Quantidade"] !! 1
          = Some (Some (Str "Cliente"))) as Hi by (vm_compute; reflexivity).
  split; [done|].
  exact (proj1 (stored_fields_are_text planilha_exemplo tabela_exemplo 1 _
                  (Str "Cliente") H Hh Hl HE Hne) 1 Hi).
Defined.

(** C6, as stated, fails for Quantidade: a workbook without that column
    still gets it numbered 1..N, not filled with missing values. *)
Lemma missing_column_counterexample :
  ¬ ∀ (arquivo : sheet) (lab : cell) (self : DataProcessor),
      header_valido arquivo → lab ∈ colunas_esperadas →
      lab ∉ source_columns arquivo →
      ∃ self' mensagem T,
        processar_arquivo arquivo self = (self', (true, mensagem))
        ∧ held self' = Some T
        ∧ getitem lab T = OneColumn (replicate (length (rows T)) NaN).
Proof.
  intros H.
  destruct (H planilha_so_item Quantidade init)
    as (self' & m & T & Hp & Hheld & Hcol).
  - exists 0, [Str "Item"]. split; [reflexivity|]. split; [reflexivity|].
    split; [repeat constructor; done|compute_done].
  - compute_done.
  - compute_done.
  - assert (loads planilha_so_item T) as HT by (by exists init, self', m).
    apply loads_processar in HT. vm_compute in HT. injection HT as <-.
    vm_compute in Hcol. discriminate.
Qed.

(** C6, amended: a workbook with a valid header line that lacks one of
    the eight expected columns still loads, answering true; the column is
    missing in every row of the table, except Quantidade, which reads
    1..N. *)
Theorem missing_column_is_all_missing (arquivo : sheet) (lab : cell)
    (self : DataProcessor) :
  header_valido arquivo → lab ∈ colunas_esperadas →
  lab ∉ source_columns arquivo →
  ∃ self' T,
    processar_arquivo arquivo self = (self', (true, MsgSucesso))
    ∧ held self' = Some T
    ∧ getitem lab T
      = OneColumn (if decide (lab = Quantidade)
                   then range_from 1 (length (rows T))
                   else replicate (length (rows T)) NaN).
Proof.
  intros Hv HE Hsrc.
  destruct (header_valido_sucesso _ Hv) as [T HT].
  assert (loads arquivo T) as Hl by (by apply loads_processar).
  unfold processar_arquivo. rewrite HT. unfold alloc.
  eexists _, T. split; [done|]. split.
  - unfold held. simpl. by rewrite lookup_insert_eq.
  - rewrite getitem_esperadas by (done || by eapply loaded_columns).
    f_equal. case_decide as Hq.
    + subst lab. by eapply loaded_quantidade.
    + by eapply loaded_missing.
Qed.

Lemma missing_column_is_all_missing_witness :
  (header_valido planilha_exemplo ∧ Str "Chassi" ∈ colunas_esperadas
   ∧ Str "Chassi" ∉ source_columns planilha_exemplo)
  ∧ ∃ self' T,
      processar_arquivo planilha_exemplo init = (self', (true, MsgSucesso))
      ∧ held self' = Some T
      ∧ getitem (Str "Chassi") T = OneColumn (replicate (length (rows T)) NaN).
Proof.
  assert (header_valido planilha_exemplo) as Hv.
  { exists 1, [Str "Item"; Str "Cliente"; Str "Cidade"; Str "Quantidade"].
    split; [reflexivity|]. split; [reflexivity|]. split.
    - repeat constructor; done.
    - compute_done. }
  assert (Str "Chassi" ∈ colunas_esperadas) as HE by compute_done.
  assert (Str "Chassi" ∉ source_columns planilha_exemplo) as Hsrc
      by compute_done.
  split; [done|].
  exact (missing_column_is_all_missing planilha_exemplo (Str "Chassi") init
           Hv HE Hsrc).
Defined.



(** C8, run on the example: the two customers that differ by a leading
    space are distinct cells, [unique] keeps both, and stripping them
    afterwards makes the answer repeat a value. *)
Theorem get_valores_unicos_repeats :
  held processador_exemplo = Some tabela_exemplo
  ∧ serie_de (Str "Cliente") tabela_exemplo
    = [Str "Acme"; Str " Acme"; Str "Beta"]
  ∧ get_valores_unicos "Cliente" processador_exemplo
    = Returned ["Acme"; "Acme"; "Beta"]
  ∧ ¬ NoDup ["Acme"; "Acme"; "Beta"].
Proof.
  split; [|split; [|split]]; try (vm_compute; reflexivity).
  intros H. apply NoDup_cons in H as [H _]. apply H. by left.
Qed.

(** What does hold of [get_valores_unicos], for every processor and
    column: it returns, sorted, without blank or untrimmed text; it returns
    nothing when no table is held or the column is unknown. *)
Lemma get_valores_unicos_sorted_trimmed coluna self :
  (∃ l, get_valores_unicos coluna self = Returned l
        ∧ StronglySorted String.le l
        ∧ Forall (fun s => s ≠ "" ∧ trimmed s) l)
  ∧ (held self = None → get_valores_unicos coluna self = Returned [])
  ∧ (∀ T, held self = Some T → Str coluna ∉ columns T →
          get_valores_unicos coluna self = Returned []).
Proof.
  split; [apply get_valores_unicos_returns|]. split.
  - apply get_valores_unicos_unloaded.
  - intros T. apply get_valores_unicos_unknown.
Qed.

(** C9: on a loaded table, filtering the answer of a filter with the same
    restrictions gives that answer again, row for row. *)
Theorem filter_idempotent (arquivo : sheet) (T : DataFrame)
    (self : DataProcessor) (filtros : filtros_t) :
  loads arquivo T → held self = Some T →
  ∃ F, Filter filtros self = Returned F
       ∧ ∀ self2, held self2 = Some F → Filter filtros self2 = Returned F.
Proof.
  intros HT Hheld. exists (filtrado filtros T).
  split; [by apply Filter_value|]. intros self2 H2.
  rewrite (Filter_value _ _ _ H2). f_equal. apply filtrado_idem.
  - by eapply loaded_columns.
  - by eapply loaded_well_shaped.
  - rewrite (loaded_quantidade _ _ HT). apply range_from_not_text.
Qed.

Lemma filter_idempotent_witness :
  (loads planilha_exemplo tabela_exemplo
   ∧ held processador_exemplo = Some tabela_exemplo)
  ∧ ∃ F, Filter [("Cliente", [Str "Acme"; Str "Beta"])] processador_exemplo
         = Returned F
         ∧ ∀ self2, held self2 = Some F →
                    Filter [("Cliente", [Str "Acme"; Str "Beta"])] self2
                    = Returned F.
Proof.
  assert (loads planilha_exemplo tabela_exemplo) as H.
  { exists init, processador_exemplo, MsgSucesso.
    split; vm_compute; reflexivity. }
  assert (held processador_exemplo = Some tabela_exemplo) as Hh
      by (vm_compute; reflexivity).
  split; [done|].
  exact (filter_idempotent planilha_exemplo tabela_exemplo processador_exemplo
           [("Cliente", [Str "Acme"; Str "Beta"])] H Hh).
Defined.

(** C10: [filtrar_dados] leaves the held table as it was, on the path
    that returns the filtered copy and on the path that falls back to a
    plain copy: [self.df] is the same reference, it holds the same frame,
    no frame of the store has changed, and the answer is another object. *)
Theorem filtrar_dados_keeps_held_table (filtros : filtros_t)
    (self : DataProcessor) (T : DataFrame) :
  held self = Some T →
  ∃ self' l,
    filtrar_dados filtros self = (self', Returned l)
    ∧ self_df self' = self_df self
    ∧ held self' = Some T
    ∧ (∀ k d, heap self !! k = Some d → heap self' !! k = Some d)
    ∧ Some l ≠ self_df self.
Proof.
  intros Hheld.
  destruct (filtrar_dados_spec filtros self T Hheld)
    as (self' & l & Hf & _ & Hdf & Hsub & Hfresh).
  exists self', l. split; [done|]. split; [done|].
  unfold held in *. rewrite Hdf.
  destruct (self_df self) as [l0|]; [|done]. simpl in *.
  split; [by eapply lookup_weaken|]. split.
  - intros k d Hk. by eapply lookup_weaken.
  - intros [= ->]. congruence.
Qed.

Lemma filtrar_dados_keeps_held_table_witness :
  held processador_exemplo = Some tabela_exemplo
  ∧ ∃ self' l,
      filtrar_dados [("Cliente", [Str "Beta"]); ("Sem coluna", [Str "x"])]
        processador_exemplo = (self', Returned l)
      ∧ self_df self' = self_df processador_exemplo
      ∧ held self' = Some tabela_exemplo
      ∧ (∀ k d, heap processador_exemplo !! k = Some d →
                heap self' !! k = Some d)
      ∧ Some l ≠ self_df processador_exemplo.
Proof.
  assert (held processador_exemplo = Some tabela_exemplo) as Hh
      by (vm_compute; reflexivity).
  split; [done|].
  exact (filtrar_dados_keeps_held_table
           [("Cliente", [Str "Beta"]); ("Sem coluna", [Str "x"])]
           processador_exemplo tabela_exemplo Hh).
Defined.
